(** * Amplitude Audio SDK asset pipeline: staleness, path resolution, cleaning

    A shallow embedding of [scripts/common.py] and [scripts/build_assets.py]
    and the properties of the conversion-planning core stated in the
    specification.

    Python strings are [string]; the [str] methods the scripts call
    ([startswith], [endswith], [in], [replace]) are defined below with
    CPython's semantics.  The file system is a finite map from path strings
    to nodes; [os.path.isfile], [os.path.getmtime] and [os.remove] act on it.
    Code that can raise returns a [result]. *)

From Stdlib Require Import ZArith Lia Bool.
From Stdlib Require Import Strings.Ascii Strings.String.
From stdpp Require Import gmap strings list.

Local Open Scope stdpp_scope.

(** ** Python [str] operations *)

Module Str.

(** [s.startswith(pre)] *)
Fixpoint startswith (s pre : string) {struct pre} : bool :=
  match pre with
  | EmptyString => true
  | String a pre' =>
      match s with
      | EmptyString => false
      | String b s' => Ascii.eqb a b && startswith s' pre'
      end
  end.

(** [s.endswith(suf)]: some tail of [s] is [suf]. *)
Fixpoint endswith (s suf : string) : bool :=
  String.eqb s suf ||
  match s with
  | EmptyString => false
  | String _ s' => endswith s' suf
  end.

(** [sub in s]: [sub] starts at some position of [s]. *)
Fixpoint contains (s sub : string) : bool :=
  startswith s sub ||
  match s with
  | EmptyString => false
  | String _ s' => contains s' sub
  end.

(** Number of occurrences of the character [c], [s.count(c)]. *)
Fixpoint count (c : ascii) (s : string) : nat :=
  match s with
  | EmptyString => O
  | String b s' => ((if Ascii.eqb c b then 1 else 0) + count c s')%nat
  end.

(** The scan of [s.replace(old, new)] for a non-empty [old]: left to
    right, every occurrence found is replaced and the scan resumes after
    it, so the [skip] remaining characters of a matched occurrence are
    dropped. *)
Fixpoint replace_scan (old new : string) (skip : nat) (s : string) : string :=
  match s with
  | EmptyString => EmptyString
  | String c s' =>
      match skip with
      | S k => replace_scan old new k s'
      | O =>
          if startswith s old
          then new +:+ replace_scan old new (String.length old - 1) s'
          else String c (replace_scan old new 0 s')
      end
  end.

(** [s.replace("", new)]: [new] is inserted before every character and
    at the end. *)
Fixpoint intersperse (new s : string) : string :=
  match s with
  | EmptyString => new
  | String c s' => new +:+ String c (intersperse new s')
  end.

(** [s.replace(old, new)] *)
Definition replace (s old new : string) : string :=
  match old with
  | EmptyString => intersperse new s
  | String _ _ => replace_scan old new 0 s
  end.

End Str.

(** ** Exceptions and results *)

Inductive exn : Set :=
| FileNotFoundError   (* a subclass of OSError *)
| TypeError
| BuildError.         (* the scripts' own exception class *)

(** [isinstance(e, OSError)], the test of an [except OSError] clause. *)
Definition is_OSError (e : exn) : bool :=
  match e with
  | FileNotFoundError => true
  | TypeError | BuildError => false
  end.

Inductive result (A : Type) : Type :=
| Ok (a : A)
| Raise (e : exn).
Arguments Ok {A} a.
Arguments Raise {A} e.

Definition bind {A B : Type} (r : result A) (k : A -> result B) : result B :=
  match r with
  | Ok a => k a
  | Raise e => Raise e
  end.

Notation "x <- r ;; k" := (bind r (fun x => k))
  (at level 100, r at next level, right associativity).

(** ** The file system and [os.path] *)

Module Os.

(** What a path names: a regular file or a directory, with the
    modification time [os.path.getmtime] reports for it.  Only the order
    of modification times is ever observed, so a time is an integer
    count of clock ticks.  A path is in the map when [os.stat] succeeds
    on it. *)
Inductive node : Set :=
| File (mtime : Z)
| Directory (mtime : Z).

Definition mtime_of (n : node) : Z :=
  match n with File t => t | Directory t => t end.

Abbreviation filesystem := (gmap string node).

(** [os.path.isfile(p)] *)
Definition isfile (fs : filesystem) (p : string) : bool :=
  match fs !! p with
  | Some (File _) => true
  | _ => false
  end.

(** [os.path.getmtime(p)]: raises when [os.stat] fails on [p].  The call
    raises the [OSError] subclass that fits ([FileNotFoundError],
    [NotADirectoryError] for a path below a regular file,
    [PermissionError]); the model has the first for all of them, so only
    statements about paths without such an ancestor name the kind. *)
Definition getmtime (fs : filesystem) (p : string) : result Z :=
  match fs !! p with
  | Some n => Ok (mtime_of n)
  | None => Raise FileNotFoundError
  end.

(** [os.path.exists(p)] *)
Definition exists_ (fs : filesystem) (p : string) : bool :=
  bool_decide (is_Some (fs !! p)).

(** [os.remove(p)], called on regular files only: the entry goes.  Not
    followed here: the call also sets the modification time of the parent
    directory, and it can raise [OSError] (permissions).  What is stated
    about cleaning is about runs in which it succeeds, and about regular
    files and which paths exist, not about the times of directories. *)
Definition remove (fs : filesystem) (p : string) : filesystem :=
  delete p fs.

(** Statements that act on the file system and may raise: the outcome
    comes with the file system as the statement left it. *)
Definition io (A : Type) : Type := filesystem -> result A * filesystem.

Definition io_ret {A : Type} (a : A) : io A := fun fs => (Ok a, fs).

Definition io_bind {A B : Type} (m : io A) (k : A -> io B) : io B :=
  fun fs =>
    match m fs with
    | (Ok a, fs') => k a fs'
    | (Raise e, fs') => (Raise e, fs')
    end.

Notation "x <~ m ;; k" := (io_bind m (fun x => k))
  (at level 100, m at next level, right associativity).

(** An expression that only reads the file system. *)
Definition io_read {A : Type} (f : filesystem -> result A) : io A :=
  fun fs => (f fs, fs).

(** [for x in l: body(x)] *)
Fixpoint for_each {A : Type} (l : list A) (body : A -> io unit) : io unit :=
  match l with
  | [] => io_ret tt
  | x :: l' => u <~ body x ;; for_each l' body
  end.

(** One step of [posixpath.join], the [os.path.join] of POSIX systems. *)
Definition join2 (a b : string) : string :=
  if Str.startswith b "/" then b
  else if String.eqb a "" || Str.endswith a "/" then a +:+ b
  else a +:+ "/" +:+ b.

(** [os.path.join(a, *p)] *)
Definition join (a : string) (p : list string) : string :=
  fold_left join2 p a.

End Os.

(** ** [scripts/common.py] *)

Module Common.
Import Os.

Definition SOUNDS_DIR_NAME : string := "sounds".
Definition COLLECTIONS_DIR_NAME : string := "collections".
Definition SOUNDBANKS_DIR_NAME : string := "soundbanks".
Definition EVENTS_DIR_NAME : string := "events".
Definition ATTENUATORS_DIR_NAME : string := "attenuators".
Definition SWITCHES_DIR_NAME : string := "switches".
Definition SWITCH_CONTAINERS_DIR_NAME : string := "switch_containers".
Definition RTPC_DIR_NAME : string := "rtpc".
Definition EFFECTS_DIR_NAME : string := "effects".
Definition ENVIRONMENTS_DIR_NAME : string := "environments".

(** [class FlatbuffersConversionData] *)
Record FlatbuffersConversionData : Set := {
  schema : string;
  input_files : list string
}.

(** [needs_rebuild(source, target)]:
    [not os.path.isfile(target) or
     (os.path.getmtime(source) > os.path.getmtime(target))].
    The right operand of [or] is evaluated only when the left is false. *)
Definition needs_rebuild (fs : filesystem) (source target : string)
  : result bool :=
  if negb (isfile fs target) then Ok true
  else
    ms <- getmtime fs source ;;
    mt <- getmtime fs target ;;
    Ok (ms >? mt)%Z.

(** The condition of the [if] in the loop body of
    [generate_flatbuffers_binaries]:
    [needs_rebuild(json, target) or needs_rebuild(schema, target)]. *)
Definition unit_needs_rebuild (fs : filesystem) (json schema target : string)
  : result bool :=
  stale <- needs_rebuild fs json target ;;
  if stale then Ok true else needs_rebuild fs schema target.

(** The conditional expression that [processed_json_path] passes as the
    replacement for [".json"]. *)
Definition processed_extension (path : string) : string :=
  if Str.endswith path "config.json" then ".amconfig"
  else if Str.endswith path "buses.json" then ".ambus"
  else if Str.contains path SOUNDBANKS_DIR_NAME then ".ambank"
  else if Str.contains path COLLECTIONS_DIR_NAME then ".amcollection"
  else if Str.contains path EVENTS_DIR_NAME then ".amevent"
  else if Str.contains path ATTENUATORS_DIR_NAME then ".amattenuation"
  else if Str.contains path SWITCHES_DIR_NAME then ".amswitch"
  else if Str.contains path SWITCH_CONTAINERS_DIR_NAME then ".amswitchcontainer"
  else if Str.contains path RTPC_DIR_NAME then ".amrtpc"
  else if Str.contains path SOUNDS_DIR_NAME then ".amsound"
  else if Str.contains path ENVIRONMENTS_DIR_NAME then ".amenv"
  else ".ambin".

(** [processed_json_path(path, input_path, output_path)] *)
Definition processed_json_path (path input_path output_path : string)
  : string :=
  Str.replace
    (Str.replace path ".json" (processed_extension path))
    input_path output_path.

(** [find_in_paths(name, paths)] *)
Fixpoint find_in_paths (fs : filesystem) (name : string)
    (paths : list string) : string :=
  match paths with
  | [] => name
  | path :: paths' =>
      let full_path := join path [name] in
      if isfile fs full_path then full_path
      else find_in_paths fs name paths'
  end.

(** The body of the inner loop of [clean_flatbuffers_binaries]. *)
Definition clean_json (input_path output_path : string)
    (fs : filesystem) (json : string) : filesystem :=
  let path := processed_json_path json input_path output_path in
  if isfile fs path then remove fs path else fs.

(** [clean_flatbuffers_binaries(conversion_data, input_path, output_path)].
    Nothing in the loop raises, so the file system is simply passed
    along. *)
Definition clean_flatbuffers_binaries
    (conversion_data : list FlatbuffersConversionData)
    (input_path output_path : string) (fs : filesystem) : filesystem :=
  fold_left
    (fun fs element =>
       fold_left (clean_json input_path output_path)
                 (input_files element) fs)
    conversion_data fs.

Section Environment.
(** [glob.glob(pattern, recursive=...)] lists the file system; it is
    taken as given. *)
Variable glob : string -> bool -> list string.
(** The value of [SDK_PATH], read from the environment at import. *)
Variable SDK_PATH : string.
(** [os.path.dirname], [os.makedirs] and the run of the external compiler
    by [run_subprocess] (which raises [BuildError] when the process cannot
    be started or exits with a non-zero code) are taken as given. *)
Variable dirname : string -> string.
Variable makedirs : string -> io unit.
Variable run_subprocess : list string -> io unit.

Definition SCHEMA_PATHS : list string :=
  [join SDK_PATH ["sdk"; "schemas"]].

(** [convert_json_to_flatbuffers_binary(flatc, json, schema, out_dir)] *)
Definition convert_json_to_flatbuffers_binary
    (flatc json schema out_dir : string) : io unit :=
  let command := [flatc; "-o"; out_dir] in
  let command :=
    fold_left (fun command path => command ++ ["-I"; path])
              SCHEMA_PATHS command in
  let command := command ++ ["-b"; schema; json] in
  run_subprocess command.

(** The body of the inner loop of [generate_flatbuffers_binaries]. *)
Definition generate_json (flatc input_path output_path schema json : string)
  : io unit :=
  let target := processed_json_path json input_path output_path in
  let target_file_dir := dirname target in
  u <~ (fun fs => if negb (exists_ fs target_file_dir)
                   then makedirs target_file_dir fs
                   else io_ret tt fs) ;;
  stale <~ io_read (fun fs => unit_needs_rebuild fs json schema target) ;;
  if stale
  then convert_json_to_flatbuffers_binary flatc json schema target_file_dir
  else io_ret tt.

(** [generate_flatbuffers_binaries(flatc, conversion_data, input_path,
    output_path)] *)
Definition generate_flatbuffers_binaries (flatc : string)
    (conversion_data : list FlatbuffersConversionData)
    (input_path output_path : string) : io unit :=
  for_each conversion_data
    (fun element =>
       let schema := schema element in
       for_each (input_files element)
         (generate_json flatc input_path output_path schema)).

(** [get_conversion_data(project_path)] *)
Definition get_conversion_data (fs : filesystem) (project_path : string)
  : list FlatbuffersConversionData :=
  [ {| schema := find_in_paths fs "engine_config_definition.bfbs" SCHEMA_PATHS;
       input_files := glob (join project_path ["*.config.json"]) false |};
    {| schema := find_in_paths fs "buses_definition.bfbs" SCHEMA_PATHS;
       input_files := glob (join project_path ["*.buses.json"]) false |};
    {| schema := find_in_paths fs "sound_bank_definition.bfbs" SCHEMA_PATHS;
       input_files :=
         glob (join project_path [SOUNDBANKS_DIR_NAME; "**/*.json"]) true |};
    {| schema := find_in_paths fs "collection_definition.bfbs" SCHEMA_PATHS;
       input_files :=
         glob (join project_path [COLLECTIONS_DIR_NAME; "**/*.json"]) true |};
    {| schema := find_in_paths fs "sound_definition.bfbs" SCHEMA_PATHS;
       input_files :=
         glob (join project_path [SOUNDS_DIR_NAME; "**/*.json"]) true |};
    {| schema := find_in_paths fs "event_definition.bfbs" SCHEMA_PATHS;
       input_files :=
         glob (join project_path [EVENTS_DIR_NAME; "**/*.json"]) true |};
    {| schema := find_in_paths fs "attenuation_definition.bfbs" SCHEMA_PATHS;
       input_files :=
         glob (join project_path [ATTENUATORS_DIR_NAME; "**/*.json"]) true |};
    {| schema := find_in_paths fs "switch_definition.bfbs" SCHEMA_PATHS;
       input_files :=
         glob (join project_path [SWITCHES_DIR_NAME; "**/*.json"]) true |};
    {| schema := find_in_paths fs "switch_container_definition.bfbs" SCHEMA_PATHS;
       input_files :=
         glob (join project_path [SWITCH_CONTAINERS_DIR_NAME; "**/*.json"]) true |};
    {| schema := find_in_paths fs "rtpc_definition.bfbs" SCHEMA_PATHS;
       input_files :=
         glob (join project_path [RTPC_DIR_NAME; "**/*.json"]) true |};
    {| schema := find_in_paths fs "effect_definition.bfbs" SCHEMA_PATHS;
       input_files :=
         glob (join project_path [EFFECTS_DIR_NAME; "**/*.json"]) true |} ].
End Environment.

End Common.

(** ** [scripts/build_assets.py], the fixed sample-tree variant *)

Module BuildAssets.
Import Os.

Section SampleTree.
(** [PROJECT_ROOT], derived from the location of the script. *)
Variable PROJECT_ROOT : string.
(** [FLATBUFFERS_CONVERSION_DATA], computed once at import by globbing
    the sample tree. *)
Variable FLATBUFFERS_CONVERSION_DATA : list Common.FlatbuffersConversionData.

Definition RAW_ASSETS_PATH : string :=
  join PROJECT_ROOT ["samples"; "rawassets"].

(** [processed_json_path(path, target_directory)] *)
Definition processed_json_path (path target_directory : string) : string :=
  Str.replace (Str.replace path RAW_ASSETS_PATH target_directory)
              ".json" ".bin".

(** The body of [clean_flatbuffer_binaries(target_directory)]. *)
Definition clean_flatbuffer_binaries_body (target_directory : string)
    (fs : filesystem) : filesystem :=
  fold_left
    (fun fs element =>
       fold_left
         (fun fs json =>
            let path := processed_json_path json target_directory in
            if isfile fs path then remove fs path else fs)
         (Common.input_files element) fs)
    FLATBUFFERS_CONVERSION_DATA fs.

(** Calling [clean_flatbuffer_binaries]: the function declares exactly
    one parameter, [target_directory], without a default.  Python binds
    the positional arguments of the call to the parameters before the
    body runs and raises [TypeError] when their numbers differ; the file
    system is then as it was. *)
Definition clean_flatbuffer_binaries (args : list string) : io unit :=
  fun fs =>
    match args with
    | [target_directory] =>
        (Ok tt, clean_flatbuffer_binaries_body target_directory fs)
    | _ => (Raise TypeError, fs)
    end.

(** [clean()]: its body is the call [clean_flatbuffer_binaries()]. *)
Definition clean : io unit :=
  clean_flatbuffer_binaries [].

(** The branch of [main] for the target ['clean']:
    [try: clean()] / [except OSError as error: ...; return 1], then
    [return 0]. *)
Definition main_clean : io Z :=
  fun fs =>
    match clean fs with
    | (Ok _, fs') => (Ok 0%Z, fs')
    | (Raise e, fs') =>
        if is_OSError e then (Ok 1%Z, fs') else (Raise e, fs')
    end.

End SampleTree.

End BuildAssets.

(** ** The category registry as the specification words it

    An ordered list of (marker, output extension) pairs evaluated in
    sequence; the first marker that matches the path decides, and a path
    that matches none gets the generic extension. *)

Module Registry.

Inductive marker : Set :=
| Suffix (s : string)      (* the path ends with [s] *)
| DirName (s : string).    (* [s] occurs in the path *)

Definition matches (path : string) (m : marker) : bool :=
  match m with
  | Suffix s => Str.endswith path s
  | DirName s => Str.contains path s
  end.

Definition is_suffix (m : marker) : bool :=
  match m with Suffix _ => true | DirName _ => false end.

Definition registry : list (marker * string) :=
  [ (Suffix "config.json", ".amconfig");
    (Suffix "buses.json", ".ambus");
    (DirName "soundbanks", ".ambank");
    (DirName "collections", ".amcollection");
    (DirName "events", ".amevent");
    (DirName "attenuators", ".amattenuation");
    (DirName "switches", ".amswitch");
    (DirName "switch_containers", ".amswitchcontainer");
    (DirName "rtpc", ".amrtpc");
    (DirName "sounds", ".amsound");
    (DirName "environments", ".amenv") ].

Definition fallback : string := ".ambin".

Fixpoint first_match (path : string) (reg : list (marker * string))
  : option string :=
  match reg with
  | [] => None
  | (m, ext) :: reg' =>
      if matches path m then Some ext else first_match path reg'
  end.

Definition classify (path : string) : string :=
  match first_match path registry with
  | Some ext => ext
  | None => fallback
  end.

End Registry.

(** ** The plan as the clean and build steps see it *)

Module Plan.
Import Os Common.

(** The patterns [get_conversion_data] hands to [glob], in order. *)
Definition discovery_patterns (project_path : string)
  : list (string * bool) :=
  [ (join project_path ["*.config.json"], false);
    (join project_path ["*.buses.json"], false);
    (join project_path ["soundbanks"; "**/*.json"], true);
    (join project_path ["collections"; "**/*.json"], true);
    (join project_path ["sounds"; "**/*.json"], true);
    (join project_path ["events"; "**/*.json"], true);
    (join project_path ["attenuators"; "**/*.json"], true);
    (join project_path ["switches"; "**/*.json"], true);
    (join project_path ["switch_containers"; "**/*.json"], true);
    (join project_path ["rtpc"; "**/*.json"], true);
    (join project_path ["effects"; "**/*.json"], true) ].

(** Every output path the plan resolves to, stale or not, in plan
    order. *)
Definition resolved_outputs (conversion_data : list FlatbuffersConversionData)
    (input_path output_path : string) : list string :=
  flat_map
    (fun element =>
       map (fun json => processed_json_path json input_path output_path)
           (input_files element))
    conversion_data.

(** Removing, one after the other, those of the listed paths that are
    regular files. *)
Definition remove_files (paths : list string) (fs : filesystem)
  : filesystem :=
  fold_left (fun fs p => if isfile fs p then remove fs p else fs) paths fs.


End Plan.

(** ** Sample projects used to exercise the statements *)

Module Scenario.
Import Os Common.

(** A project whose only description file is an environment
    definition. *)
Definition glob_environment_only (pattern : string) (recursive : bool)
  : list string :=
  if String.eqb pattern "proj/environments/**/*.json" && recursive
  then ["proj/environments/room.json"]
  else [].

(** One sound whose output is newer than the input but older than the
    schema, and one event whose output is newer than both. *)
Definition fs_built : filesystem :=
  list_to_map
    [ ("proj/sounds/a.json", File 10);
      ("out/sounds/a.amsound", File 20);
      ("sdk/schemas/sound_definition.bfbs", File 30);
      ("proj/events/b.json", File 10);
      ("out/events/b.amevent", File 40);
      ("sdk/schemas/event_definition.bfbs", File 30) ].

Definition plan_built : list FlatbuffersConversionData :=
  [ {| schema := "sdk/schemas/sound_definition.bfbs";
       input_files := ["proj/sounds/a.json"] |};
    {| schema := "sdk/schemas/event_definition.bfbs";
       input_files := ["proj/events/b.json"] |} ].

End Scenario.

(** ** More of [os.path], and processes *)

Module OsPath.

(** [p[:p.rfind('/') + 1]]: the path up to and with its last ["/"]. *)
Fixpoint upto_last_slash (p : string) : string :=
  match p with
  | EmptyString => EmptyString
  | String c r =>
      if Str.contains p "/" then String c (upto_last_slash r)
      else EmptyString
  end.

(** [s.rstrip('/')] *)
Fixpoint rstrip_slash (s : string) : string :=
  match s with
  | EmptyString => EmptyString
  | String c r =>
      let r' := rstrip_slash r in
      if Ascii.eqb c "/" && String.eqb r' "" then EmptyString
      else String c r'
  end.

(** [s == '/' * len(s)] *)
Fixpoint all_slashes (s : string) : bool :=
  match s with
  | EmptyString => true
  | String c r => Ascii.eqb c "/" && all_slashes r
  end.

(** [posixpath.dirname(p)] *)
Definition dirname (p : string) : string :=
  let head := upto_last_slash p in
  if negb (String.eqb head "") && negb (all_slashes head)
  then rstrip_slash head
  else head.

(** [posixpath.basename(p)]: what follows the last ["/"]. *)
Fixpoint basename (p : string) : string :=
  match p with
  | EmptyString => EmptyString
  | String c r =>
      if Str.contains r "/" then basename r
      else if Ascii.eqb c "/" then r
      else p
  end.

End OsPath.

Module Process.
Import Os.

(** What [subprocess.Popen(argv)] followed by [process.wait()] comes to
    for a command the operating system is asked to run: the program could
    not be started ([OSError], with its text), or it ran and left a
    return code. *)
Inductive spawned : Set :=
| CannotStart (text : string)
| Exited (returncode : Z).

(** A command [Popen] can take to the operating system: at least the
    program, and no argument with a NUL character.  On any other list
    [Popen] raises ([IndexError], [ValueError]) before a process is
    started, and [run_subprocess] lets that through. *)
Definition valid_command (argv : list string) : bool :=
  match argv with
  | [] => false
  | _ => forallb (fun arg => Nat.eqb (Str.count Ascii.zero arg) 0) argv
  end.

(** Running a valid command: what became of the process, and the file
    system as the process left it. *)
Definition spawner : Type := list string -> filesystem -> spawned * filesystem.

End Process.

(** ** The rest of [scripts/common.py] *)

Module CommonRest.
Import Os Common Process.

(** [processed_json_filename(path, input_path, output_path)] *)
Definition processed_json_filename (path input_path output_path : string)
  : string :=
  OsPath.basename (processed_json_path path input_path output_path).

(** The attributes of a [BuildError] instance. *)
Record build_error : Set := {
  argv : list string;
  error_code : Z;
  message : string
}.

(** The [BuildError] that [run_subprocess(argv)] raises, if any:
    [BuildError(argv, 1, message=str(e))] when [Popen] raises [OSError],
    [BuildError(argv, process.returncode)] when the return code is not
    zero. *)
Definition run_subprocess_error (argv : list string) (p : spawned)
  : option build_error :=
  match p with
  | CannotStart text =>
      Some {| argv := argv; error_code := 1; message := text |}
  | Exited returncode =>
      if (returncode =? 0)%Z then None
      else Some {| argv := argv; error_code := returncode; message := "" |}
  end.

(** [run_subprocess(argv)], on the commands the scripts pass: a program
    path followed by options and paths ([valid_command]).  The exceptions
    [Popen] raises on other lists are not [OSError]s and are outside this
    definition. *)
Definition run_subprocess (spawn : spawner) (argv : list string) : io unit :=
  fun fs =>
    match spawn argv fs with
    | (p, fs') =>
        match run_subprocess_error argv p with
        | Some _ => (Raise BuildError, fs')
        | None => (Ok tt, fs')
        end
    end.

(** [class CommandOptions]: the two paths start as [None]. *)
Record CommandOptions : Set := {
  project_path : option string;
  build_path : option string;
  flatc_path : string
}.

(** How [CommandOptions(argv, ...)] ends: with the instance, or with
    [sys.exit(code)]. *)
Inductive constructed : Set :=
| SystemExit (code : Z)
| Constructed (self : CommandOptions).

(** [opt in (name, ...)] *)
Definition is_in (opt : string) (names : list string) : bool :=
  existsb (String.eqb opt) names.

(** The loop [for opt, arg in opts] of [CommandOptions.__init__]. *)
Fixpoint read_opts (opts : list (string * string)) (self : CommandOptions)
  : constructed :=
  match opts with
  | [] => Constructed self
  | (opt, arg) :: opts' =>
      if is_in opt ["-h"; "--help"] then SystemExit 0
      else if is_in opt ["-v"; "--version"] then read_opts opts' self
      else if is_in opt ["-p"; "--project-path"] then
        read_opts opts' {| project_path := Some arg;
                           build_path := build_path self;
                           flatc_path := flatc_path self |}
      else if is_in opt ["-b"; "--build-path"] then
        read_opts opts' {| project_path := project_path self;
                           build_path := Some arg;
                           flatc_path := flatc_path self |}
      else if is_in opt ["-f"; "--flatc"] then
        read_opts opts' {| project_path := project_path self;
                           build_path := build_path self;
                           flatc_path := arg |}
      else read_opts opts' self
  end.

(** [path == ''] for an attribute that may be [None]. *)
Definition is_empty_str (path : option string) : bool :=
  match path with
  | Some s => String.eqb s ""
  | None => false
  end.

(** [CommandOptions.__init__], from the [opts] that [getopt.getopt]
    returned for [argv]; [FLATC] is the class default of [flatc_path]. *)
Definition CommandOptions_init (FLATC : string) (opts : list (string * string))
  : constructed :=
  match read_opts opts {| project_path := None; build_path := None;
                          flatc_path := FLATC |} with
  | SystemExit code => SystemExit code
  | Constructed self =>
      if is_empty_str (project_path self) || is_empty_str (build_path self)
      then SystemExit 1
      else Constructed self
  end.

(** The argument of the last option of [opts] that bears one of [names],
    and [default] when there is none. *)
Fixpoint last_value {A : Type} (names : list string) (f : string -> A)
    (default : A) (opts : list (string * string)) : A :=
  match opts with
  | [] => default
  | (opt, arg) :: opts' =>
      last_value names f (if is_in opt names then f arg else default) opts'
  end.

(** No option of [opts] asks for help. *)
Definition no_help (opts : list (string * string)) : Prop :=
  Forall (fun oa => is_in oa.1 ["-h"; "--help"] = false) opts.

End CommonRest.

(** ** How a script ends *)

Module Script.

(** An exception nobody catches: one of those of [exn], or the
    [NameError] of a name that is not defined. *)
Inductive uncaught : Set :=
| Exception (e : exn)
| NameError (name : string).

(** How a call of [main] ends. *)
Inductive ended : Set :=
| Returned (value : Z)
| Exit (code : Z)
| Uncaught (u : uncaught).

(** The exit status of a script whose last statement is [main(...)]:
    the value [main] returns is dropped. *)
Definition status_of_call (r : ended) : Z :=
  match r with
  | Returned _ => 0
  | Exit code => code
  | Uncaught _ => 1
  end.

(** The exit status of a script whose last statement is
    [sys.exit(main(...))]. *)
Definition status_of_sys_exit (r : ended) : Z :=
  match r with
  | Returned value => value
  | Exit code => code
  | Uncaught _ => 1
  end.

End Script.

(** ** [scripts/build_project.py] *)

Module BuildProject.
Import Os Common Process CommonRest Script.

Section Run.
Variable glob : string -> bool -> list string.
Variable SDK_PATH : string.
Variable dirname : string -> string.
Variable makedirs : string -> io unit.
Variable spawn : spawner.
Variable FLATC : string.

(** [main(argv)], from the [opts] that [getopt.getopt] returned for
    [argv].  With [project_path] left [None], [os.path.join] raises
    [TypeError] while the plan is built; with [build_path] left [None],
    [str.replace] raises [TypeError] at the first input file. *)
Definition main (opts : list (string * string)) (fs : filesystem)
  : ended * filesystem :=
  match CommandOptions_init FLATC opts with
  | SystemExit code => (Exit code, fs)
  | Constructed options =>
      match project_path options with
      | None => (Uncaught (Exception TypeError), fs)
      | Some input_path =>
          let conversion_data :=
            get_conversion_data glob SDK_PATH fs input_path in
          match build_path options with
          | None =>
              if forallb (fun element =>
                            match input_files element with
                            | [] => true
                            | _ => false
                            end) conversion_data
              then (Returned 0, fs)
              else (Uncaught (Exception TypeError), fs)
          | Some output_path =>
              match generate_flatbuffers_binaries SDK_PATH dirname makedirs
                      (run_subprocess spawn) (flatc_path options)
                      conversion_data input_path output_path fs with
              | (Ok _, fs') => (Returned 0, fs')
              | (Raise BuildError, fs') => (Returned 1, fs')
              | (Raise e, fs') => (Uncaught (Exception e), fs')
              end
          end
      end
  end.

(** The script: [if __name__ == '__main__': main(sys.argv[1:])]. *)
Definition script (opts : list (string * string)) (fs : filesystem) : Z :=
  status_of_call (fst (main opts fs)).

End Run.

End BuildProject.

(** ** [scripts/build_schemas.py] *)

Module BuildSchemas.
Import Os Process CommonRest Script.

Section Run.
Variable PROJECT_ROOT : string.
Variable glob : string -> bool -> list string.
Variable spawn : spawner.

(** [compile_flatbuffer_binary_schema(flatc, schema, out_dir)]; the
    script's [run_subprocess] is the one of [common.py]. *)
Definition compile_flatbuffer_binary_schema (flatc schema out_dir : string)
  : io unit :=
  let command := [flatc; "-o"; out_dir] in
  let command := command ++ ["-I"; join PROJECT_ROOT ["schemas"]] in
  let command := command ++ ["-b"; schema; "--schema"] in
  run_subprocess spawn command.

(** [generate_flatbuffer_binaries(flatc, target_directory)] *)
Definition generate_flatbuffer_binaries (flatc target_directory : string)
  : io unit :=
  for_each (glob (join PROJECT_ROOT ["schemas"; "*.fbs"]) false)
    (fun schema =>
       compile_flatbuffer_binary_schema flatc schema target_directory).

(** [main(argv)], from the [--flatc] and [--output] values that
    [argparse] produced.  The [except BuildError] clause calls
    [handle_build_error], a name this module neither defines nor
    imports. *)
Definition main (flatc output : string) (fs : filesystem)
  : ended * filesystem :=
  match generate_flatbuffer_binaries flatc output fs with
  | (Ok _, fs') => (Returned 0, fs')
  | (Raise BuildError, fs') => (Uncaught (NameError "handle_build_error"), fs')
  | (Raise e, fs') => (Uncaught (Exception e), fs')
  end.

(** The script: [sys.exit(main(sys.argv))]. *)
Definition script (flatc output : string) (fs : filesystem) : Z :=
  status_of_sys_exit (fst (main flatc output fs)).

End Run.

End BuildSchemas.

(** ** [main] of [scripts/build_assets.py] *)

Module BuildAssetsMain.
Import Os Common Script.

(** [args.args[1] if len(args.args) >= 2 else 'all'] *)
Definition target_of (args : list string) : string :=
  match args with
  | _ :: second :: _ => second
  | _ => "all"
  end.

Section Run.
Variable PROJECT_ROOT : string.
Variable FLATBUFFERS_CONVERSION_DATA : list FlatbuffersConversionData.
(** [copy_assets] walks and copies files with [os.walk] and
    [shutil.copy2], and [generate_flatbuffer_binaries] runs the compiler;
    both are taken as given. *)
Variable copy_assets : string -> io unit.
Variable generate_flatbuffer_binaries : string -> string -> io unit.

(** [main(argv)], from what [argparse] produced: the values of [--flatc]
    and [--output] and the remaining arguments [args.args]. *)
Definition main (flatc output : string) (args : list string)
    (fs : filesystem) : ended * filesystem :=
  let target := target_of args in
  if negb (String.eqb target "clean") then
    match copy_assets output fs with
    | (Raise e, fs1) => (Uncaught (Exception e), fs1)
    | (Ok _, fs1) =>
        match generate_flatbuffer_binaries flatc output fs1 with
        | (Ok _, fs2) => (Returned 0, fs2)
        | (Raise BuildError, fs2) => (Returned 1, fs2)
        | (Raise e, fs2) => (Uncaught (Exception e), fs2)
        end
    end
  else
    match BuildAssets.main_clean PROJECT_ROOT FLATBUFFERS_CONVERSION_DATA fs with
    | (Ok value, fs') => (Returned value, fs')
    | (Raise e, fs') => (Uncaught (Exception e), fs')
    end.

End Run.

End BuildAssetsMain.

(** ** Sample runs *)

Module Runs.
Import Os Common Process CommonRest.

(** A compiler that always succeeds and one that always fails, neither
    touching the file system; [makedirs] that records the directory. *)
Definition spawn_ok : spawner := fun _ fs => (Exited 0, fs).
Definition spawn_fails : spawner := fun _ fs => (Exited 2, fs).
Definition makedirs_ok (d : string) : io unit :=
  fun fs => (Ok tt, <[d := Directory 0]> fs).

(** The built tree of [Scenario.fs_built] with its output directories. *)
Definition fs_dirs : filesystem :=
  <["out/sounds" := Directory 20]>
    (<["out/events" := Directory 40]> Scenario.fs_built).

(** The event unit alone: its output is newer than input and schema. *)
Definition plan_events : list FlatbuffersConversionData :=
  [ {| schema := "sdk/schemas/event_definition.bfbs";
       input_files := ["proj/events/b.json"] |} ].

(** The same unit with a schema that was not found. *)
Definition plan_events_unresolved : list FlatbuffersConversionData :=
  [ {| schema := "event_definition.bfbs";
       input_files := ["proj/events/b.json"] |} ].

(** One schema to compile. *)
Definition glob_one_schema (pattern : string) (recursive : bool)
  : list string :=
  if String.eqb pattern "repo/schemas/*.fbs"
  then ["repo/schemas/sound_definition.fbs"]
  else [].

(** A project with one event description. *)
Definition glob_events (pattern : string) (recursive : bool) : list string :=
  if String.eqb pattern "proj/events/**/*.json" then ["proj/events/b.json"]
  else [].

(** A project with its one description file and nothing built yet. *)
Definition fs_sources : filesystem :=
  list_to_map [ ("proj/events/b.json", File 10) ].

(** Options as [getopt] returns them. *)
Definition opts_build : list (string * string) :=
  [ ("-p", "old"); ("-b", "out"); ("--flatc", "bin/flatc"); ("-p", "proj") ].

End Runs.

(** Case analysis on the condition of the first conditional in the goal. *)
Ltac case_if :=
  match goal with
  | |- context [if ?b then _ else _] => destruct b
  end.

(** * Facts about the string operations *)

Section StrFacts.
Import Str.
Local Arguments String.append !_ _ / : simpl nomatch.

Lemma app_nil_r (s : string) : s +:+ "" = s.
Proof. induction s as [|c s IH]; simpl; [reflexivity | now rewrite IH]. Qed.

Lemma app_assoc (a b c : string) : (a +:+ b) +:+ c = a +:+ b +:+ c.
Proof. induction a as [|x a IH]; simpl; [reflexivity | now rewrite IH]. Qed.

Lemma length_app (a b : string) :
  String.length (a +:+ b) = (String.length a + String.length b)%nat.
Proof. induction a as [|x a IH]; simpl; [reflexivity | now rewrite IH]. Qed.

Lemma count_app (c : ascii) (a b : string) :
  count c (a +:+ b) = (count c a + count c b)%nat.
Proof. induction a as [|x a IH]; simpl; [reflexivity | rewrite IH; lia]. Qed.

(** *** [startswith], [contains], [endswith] as decompositions *)

Lemma startswith_app (p r : string) : startswith (p +:+ r) p = true.
Proof.
  induction p as [|a p IH]; simpl; [reflexivity |].
  now rewrite Ascii.eqb_refl, IH.
Qed.

Lemma startswith_inv (s p : string) :
  startswith s p = true -> exists r, s = p +:+ r.
Proof.
  revert s. induction p as [|a p IH]; intros s H.
  - now exists s.
  - destruct s as [|b s]; simpl in H; [discriminate |].
    apply andb_prop in H as [Hab Hs].
    apply Ascii.eqb_eq in Hab as ->.
    destruct (IH _ Hs) as [r ->]. now exists r.
Qed.

Lemma startswith_iff (s p : string) :
  startswith s p = true <-> exists r, s = p +:+ r.
Proof.
  split; [apply startswith_inv | intros [r ->]; apply startswith_app].
Qed.

Lemma contains_startswith (s w : string) :
  startswith s w = true -> contains s w = true.
Proof. intros H. destruct s; simpl; now rewrite H. Qed.

Lemma contains_iff (s w : string) :
  contains s w = true <-> exists a b, s = a +:+ w +:+ b.
Proof.
  split.
  - induction s as [|c s IH]; simpl; intros H.
    + rewrite orb_false_r in H. apply startswith_inv in H as [r ->].
      now exists "", r.
    + apply orb_prop in H as [H | H].
      * apply startswith_inv in H as [r ->]. now exists "", r.
      * destruct (IH H) as (a & b & ->). now exists (String c a), b.
  - intros (a & b & ->).
    induction a as [|c a IH]; simpl.
    + apply contains_startswith, startswith_app.
    + rewrite IH. apply orb_true_r.
Qed.

Lemma endswith_iff (s w : string) :
  endswith s w = true <-> exists a, s = a +:+ w.
Proof.
  split.
  - induction s as [|c s IH]; cbn [endswith]; intros H.
    + rewrite orb_false_r in H. apply String.eqb_eq in H as <-. now exists "".
    + apply orb_prop in H as [H | H].
      * apply String.eqb_eq in H as <-. now exists "".
      * destruct (IH H) as [a ->]. now exists (String c a).
  - intros [a ->].
    induction a as [|c a IH].
    + change ("" +:+ w) with w.
      destruct w; cbn [endswith]; now rewrite String.eqb_refl.
    + change (String c a +:+ w) with (String c (a +:+ w)).
      cbn [endswith]. rewrite IH. apply orb_true_r.
Qed.

Lemma contains_false_tail (c : ascii) (s w : string) :
  contains (String c s) w = false ->
  startswith (String c s) w = false /\ contains s w = false.
Proof. simpl. intros H. now apply orb_false_elim in H. Qed.

Lemma contains_trans (s d w : string) :
  contains s d = true -> contains d w = true -> contains s w = true.
Proof.
  rewrite !contains_iff. intros (a & b & ->) (a' & b' & ->).
  exists (a +:+ a'), (b' +:+ b). now rewrite !app_assoc.
Qed.

Lemma contains_app_l (a b w : string) :
  contains a w = true -> contains (a +:+ b) w = true.
Proof.
  rewrite !contains_iff. intros (x & y & ->).
  exists x, (y +:+ b). now rewrite !app_assoc.
Qed.

Lemma endswith_app (a s w : string) :
  endswith s w = true -> endswith (a +:+ s) w = true.
Proof.
  rewrite !endswith_iff. intros [x ->]. exists (a +:+ x).
  now rewrite app_assoc.
Qed.

(** A separator character that does not occur in [w] cuts every match of
    [w] that would run over it. *)
Lemma startswith_cut (w s r : string) (c : ascii) :
  count c w = O ->
  startswith (s +:+ String c r) w = startswith s w.
Proof.
  revert s. induction w as [|a w IH]; intros s Hc; [reflexivity |].
  simpl in Hc.
  destruct (Ascii.eqb_spec c a) as [-> | Hne]; [discriminate |].
  destruct s as [|b s]; simpl.
  - destruct (Ascii.eqb_spec a c) as [-> | _]; [congruence | reflexivity].
  - now rewrite IH.
Qed.

(** *** The equations of [replace] *)

Lemma replace_scan_skip (old new x r : string) :
  replace_scan old new (String.length x) (x +:+ r) = replace_scan old new 0 r.
Proof. induction x as [|c x IH]; simpl; [reflexivity | exact IH]. Qed.

Lemma replace_nil (old new : string) :
  old <> "" -> replace "" old new = "".
Proof. destruct old; [congruence | reflexivity]. Qed.

Lemma replace_hit (old new r : string) :
  old <> "" ->
  replace (old +:+ r) old new = new +:+ replace r old new.
Proof.
  destruct old as [|a o]; [congruence | intros _].
  unfold replace.
  change (String a o +:+ r) with (String a (o +:+ r)).
  cbn [replace_scan].
  change (String a (o +:+ r)) with (String a o +:+ r).
  rewrite startswith_app.
  cbn [String.length]. rewrite Nat.sub_1_r. cbn [Nat.pred].
  now rewrite replace_scan_skip.
Qed.

Lemma replace_miss (old new : string) (c : ascii) (r : string) :
  startswith (String c r) old = false ->
  replace (String c r) old new = String c (replace r old new).
Proof.
  destruct old as [|a o]; [discriminate |].
  intros H. unfold replace. cbn [replace_scan]. now rewrite H.
Qed.

(** Induction along the scan: the result of [replace] is built from the
    three equations above. *)
Lemma replace_ind (old new : string) (P : string -> string -> Prop) :
  old <> "" ->
  P "" "" ->
  (forall r t, P r t -> P (old +:+ r) (new +:+ t)) ->
  (forall c r t, startswith (String c r) old = false ->
                 P r t -> P (String c r) (String c t)) ->
  forall s, P s (replace s old new).
Proof.
  intros Hold Hnil Hhit Hmiss s.
  remember (String.length s) as n eqn:Hn.
  revert s Hn. induction n as [n IH] using lt_wf_ind. intros s Hn.
  destruct s as [|c s].
  - rewrite replace_nil by assumption. exact Hnil.
  - destruct (startswith (String c s) old) eqn:E.
    + apply startswith_inv in E as [r E]. rewrite E.
      rewrite replace_hit by assumption.
      apply Hhit. apply (IH (String.length r)); [| reflexivity].
      subst n. rewrite E, length_app.
      destruct old; [congruence | simpl; lia].
    + rewrite replace_miss by assumption.
      apply Hmiss; [assumption |].
      apply (IH (String.length s)); [subst n; simpl; lia | reflexivity].
Qed.

(** *** What [replace] does to lengths and character counts *)

Lemma intersperse_length (new s : string) :
  (String.length s <= String.length (intersperse new s))%nat.
Proof.
  induction s as [|c s IH]; simpl; [lia |].
  rewrite length_app. simpl. lia.
Qed.

Lemma replace_length_ge (s old new : string) :
  (String.length old <= String.length new)%nat ->
  (String.length s <= String.length (replace s old new))%nat.
Proof.
  intros Hlen. destruct old as [|a o] eqn:Eo.
  - apply intersperse_length.
  - rewrite <- Eo in *. apply replace_ind.
    + now rewrite Eo.
    + lia.
    + intros r t IH. rewrite !length_app. lia.
    + intros c r t _ IH. simpl. lia.
Qed.

Lemma replace_length_gt (s old new : string) :
  (String.length old < String.length new)%nat ->
  contains s old = true ->
  (String.length s < String.length (replace s old new))%nat.
Proof.
  intros Hlen. destruct old as [|a o] eqn:Eo.
  - intros _. simpl. destruct s as [|c s]; simpl.
    + simpl in Hlen. lia.
    + rewrite length_app. simpl.
      pose proof (intersperse_length new s). simpl in Hlen. lia.
  - rewrite <- Eo in *.
    enough (H : (String.length s <= String.length (replace s old new))%nat /\
                (contains s old = true ->
                 (String.length s < String.length (replace s old new))%nat))
      by apply H.
    apply replace_ind with (P := fun r t =>
      (String.length r <= String.length t)%nat /\
      (contains r old = true -> (String.length r < String.length t)%nat)).
    + now rewrite Eo.
    + split; [lia |]. rewrite Eo. discriminate.
    + intros r t [IH _]. rewrite !length_app. lia.
    + intros c r t Hmiss [IH1 IH2]. simpl String.length. split; [lia |].
      cbn [contains]. rewrite Hmiss. simpl. intros H. specialize (IH2 H). lia.
Qed.

Lemma replace_count_le (c : ascii) (s old new : string) :
  old <> "" ->
  (count c new <= count c old)%nat ->
  (count c (replace s old new) <= count c s)%nat.
Proof.
  intros Hold Hc. apply replace_ind; [assumption | lia | |].
  - intros r t IH. rewrite !count_app. lia.
  - intros x r t _ IH. simpl. lia.
Qed.

Lemma replace_count_lt (c : ascii) (s old new : string) :
  (count c new < count c old)%nat ->
  contains s old = true ->
  (count c (replace s old new) < count c s)%nat.
Proof.
  intros Hc.
  assert (Hold : old <> "") by (intros ->; simpl in Hc; lia).
  enough (H : (count c (replace s old new) <= count c s)%nat /\
              (contains s old = true ->
               (count c (replace s old new) < count c s)%nat))
    by apply H.
  apply replace_ind with (P := fun r t =>
    (count c t <= count c r)%nat /\
    (contains r old = true -> (count c t < count c r)%nat)).
  - assumption.
  - split; [lia |]. destruct old; [congruence | discriminate].
  - intros r t [IH _]. rewrite !count_app. lia.
  - intros x r t Hmiss [IH1 IH2]. split; [simpl; lia |].
    cbn [contains]. rewrite Hmiss. simpl. intros H. specialize (IH2 H). lia.
Qed.

(** *** Where [replace] leaves the string alone *)

Lemma replace_absent (s old new : string) :
  contains s old = false -> replace s old new = s.
Proof.
  destruct old as [|a o] eqn:Eo.
  - intros H. now rewrite contains_startswith in H.
  - rewrite <- Eo.
    apply replace_ind with (P := fun r t => contains r old = false -> t = r).
    + now rewrite Eo.
    + reflexivity.
    + intros r t _ H.
      rewrite contains_startswith in H by apply startswith_app. discriminate.
    + intros c r t _ IH H.
      apply contains_false_tail in H as [_ H]. now rewrite IH.
Qed.

(** [old] does not occur in [a] and cannot run over the separator [c]:
    the scan copies [a] and the separator. *)
Lemma replace_past_root (a r old new : string) (c : ascii) :
  contains a old = false ->
  count c old = O ->
  replace (a +:+ String c r) old new = a +:+ String c (replace r old new).
Proof.
  intros Ha Hc. induction a as [|x a IH].
  - change ("" +:+ String c r) with (String c r).
    rewrite replace_miss; [reflexivity |].
    change (String c r) with ("" +:+ String c r).
    rewrite startswith_cut by assumption.
    simpl in Ha. now rewrite orb_false_r in Ha.
  - apply contains_false_tail in Ha as [Hx Ha].
    change (String x a +:+ String c r) with (String x (a +:+ String c r)).
    rewrite replace_miss.
    + now rewrite IH.
    + change (String x (a +:+ String c r)) with (String x a +:+ String c r).
      now rewrite startswith_cut.
Qed.

(** *** Patterns whose first character occurs nowhere else in them

    [".json"] is such a pattern: two occurrences of it cannot overlap. *)

Section Unbordered.
Variables (d : ascii) (o : string).
Hypothesis d_fresh : count d o = O.
Local Abbreviation old := (String d o).

Lemma count_zero_head (c : ascii) (w : string) :
  count d (String c w) = O -> Ascii.eqb d c = false /\ count d w = O.
Proof. simpl. destruct (Ascii.eqb d c); [discriminate | now split]. Qed.

Lemma startswith_before_old (x r : string) :
  x <> "" -> startswith (x +:+ String d r) old = startswith x old.
Proof.
  destruct x as [|b x]; [congruence | intros _].
  simpl. now rewrite startswith_cut.
Qed.

Lemma replace_app_old (new a : string) :
  replace (a +:+ old) old new = replace a old new +:+ new.
Proof.
  assert (Hold : old <> "") by discriminate.
  apply replace_ind with
    (P := fun r t => replace (r +:+ old) old new = t +:+ new);
    [assumption | | |].
  - change ("" +:+ old) with old. rewrite <- (app_nil_r old) at 1.
    rewrite replace_hit, replace_nil by assumption. apply app_nil_r.
  - intros r t IH. rewrite !app_assoc, replace_hit by assumption.
    now rewrite IH.
  - intros c r t Hmiss IH.
    change (String c r +:+ old) with (String c (r +:+ old)).
    rewrite replace_miss.
    + rewrite IH. reflexivity.
    + change (String c (r +:+ old)) with (String c r +:+ String d o).
      now rewrite startswith_before_old.
Qed.

Lemma replace_endswith (new s : string) :
  endswith s old = true -> endswith (replace s old new) new = true.
Proof.
  intros H. apply endswith_iff in H as [a ->].
  rewrite replace_app_old. apply endswith_iff. now eexists.
Qed.

(** The replacement starts with the same character as the pattern,
    does not repeat it, and goes on differently. *)
Variables (n : string).
Hypothesis d_fresh_new : count d n = O.
Hypothesis differs :
  match o, n with
  | String a _, String b _ => Ascii.eqb a b = false
  | _, _ => False
  end.
Local Abbreviation new := (String d n).

Lemma contains_skip_fresh (w t : string) :
  count d w = O -> contains t old = false ->
  contains (w +:+ t) old = false.
Proof.
  intros Hw Ht. induction w as [|c w IH]; [exact Ht |].
  apply count_zero_head in Hw as [Hc Hw].
  change (String c w +:+ t) with (String c (w +:+ t)).
  cbn [contains]. rewrite IH by assumption.
  cbn [startswith]. now rewrite Hc.
Qed.

Lemma replace_unbordered_inv (s : string) :
  contains (replace s old new) old = false /\
  (forall w, count d w = O -> startswith (replace s old new) w = true ->
             startswith s w = true).
Proof.
  apply replace_ind with (P := fun r t =>
    contains t old = false /\
    (forall w, count d w = O -> startswith t w = true ->
               startswith r w = true)).
  - discriminate.
  - split; [reflexivity | auto].
  - intros r t [IH _]. split.
    + change (String d n +:+ t) with (String d (n +:+ t)).
      cbn [contains]. rewrite contains_skip_fresh by assumption.
      cbn [startswith]. rewrite Ascii.eqb_refl. simpl.
      rewrite orb_false_r.
      destruct o as [|a o']; [contradiction |].
      destruct n as [|b n']; [contradiction |].
      simpl. now rewrite differs.
    + intros [|c w] Hw Hs; [reflexivity |].
      apply count_zero_head in Hw as [Hc _].
      simpl in Hs. rewrite Ascii.eqb_sym, Hc in Hs. discriminate.
  - intros c r t Hmiss [IH1 IH2]. split.
    + cbn [contains]. rewrite IH1, orb_false_r.
      destruct (startswith (String c t) old) eqn:E; [| reflexivity].
      simpl in E. simpl in Hmiss.
      apply andb_prop in E as [Hdc Ht]. rewrite Hdc in Hmiss.
      rewrite (IH2 o d_fresh Ht) in Hmiss. discriminate.
    + intros [|x w] Hw Hs; [reflexivity |].
      apply count_zero_head in Hw as [_ Hw].
      simpl in Hs |- *. apply andb_prop in Hs as [-> Hs]. simpl.
      now apply IH2.
Qed.

Lemma replace_no_old_left (s : string) :
  contains (replace s old new) old = false.
Proof. apply replace_unbordered_inv. Qed.

End Unbordered.

(** Two prefixes of one string: the shorter is a prefix of the longer. *)
Lemma prefix_of_longer (p q x y : string) :
  p +:+ x = q +:+ y ->
  (String.length p <= String.length q)%nat ->
  exists z, q = p +:+ z.
Proof.
  revert q. induction p as [|a p IH]; intros q E Hlen.
  - now exists q.
  - destruct q as [|b q]; [simpl in Hlen; lia |].
    simpl in E. injection E as -> E. simpl in Hlen.
    destruct (IH q E) as [z ->]; [lia |]. now exists z.
Qed.

End StrFacts.

(** * Staleness oracle *)

Section Staleness.
Import Os Common.

Lemma needs_rebuild_missing_target (fs : filesystem) (source target : string) :
  isfile fs target = false -> needs_rebuild fs source target = Ok true.
Proof. intros H. unfold needs_rebuild. now rewrite H. Qed.

Lemma needs_rebuild_compare (fs : filesystem) (source target : string)
    (ms mt : Z) :
  isfile fs target = true ->
  getmtime fs source = Ok ms ->
  getmtime fs target = Ok mt ->
  needs_rebuild fs source target = Ok (ms >? mt)%Z.
Proof.
  intros Ht Hs Hm. unfold needs_rebuild. rewrite Ht, Hs, Hm. reflexivity.
Qed.

(** When the source is there, the comparison cannot raise. *)
Lemma needs_rebuild_total (fs : filesystem) (source target : string) :
  is_Some (fs !! source) ->
  exists b, needs_rebuild fs source target = Ok b.
Proof.
  intros [n Hn]. unfold needs_rebuild, isfile, getmtime. rewrite Hn.
  destruct (fs !! target) as [[t | t] |]; simpl; eauto.
Qed.

(** C2. [needs_rebuild] returns true when the target is not there (no
    regular file at that path), and when the source's modification time
    is strictly greater than the target's; it returns false when the
    target is there and its modification time is greater than or equal
    to the source's. *)
Theorem needs_rebuild_spec (fs : filesystem) (source target : string) :
  (isfile fs target = false -> needs_rebuild fs source target = Ok true) /\
  (forall ms mt : Z,
      isfile fs target = true ->
      getmtime fs source = Ok ms ->
      getmtime fs target = Ok mt ->
      ((ms > mt)%Z -> needs_rebuild fs source target = Ok true) /\
      ((mt >= ms)%Z -> needs_rebuild fs source target = Ok false)).
Proof.
  split; [apply needs_rebuild_missing_target |].
  intros ms mt Ht Hs Hm.
  rewrite (needs_rebuild_compare _ _ _ _ _ Ht Hs Hm).
  split; intros Hcmp; destruct (Z.gtb_spec ms mt); (reflexivity || lia).
Qed.

(** C1. The rebuild test of a conversion unit is the short-circuit
    disjunction of the two [needs_rebuild] calls: it returns true exactly
    when the input-versus-output test returns true, or that test returns
    false and the schema-versus-output test returns true.  For a unit
    whose input is there (units come from discovery), it returns true if
    and only if [needs_rebuild] holds for the input against the output or
    for the schema against the output.  In particular a unit whose output
    is not older than its input but older than its schema needs
    rebuild. *)
Theorem unit_rebuild_test_spec (fs : filesystem)
    (json schema target : string) :
  (unit_needs_rebuild fs json schema target = Ok true <->
     needs_rebuild fs json target = Ok true \/
     (needs_rebuild fs json target = Ok false /\
      needs_rebuild fs schema target = Ok true)) /\
  (is_Some (fs !! json) ->
     (unit_needs_rebuild fs json schema target = Ok true <->
        needs_rebuild fs json target = Ok true \/
        needs_rebuild fs schema target = Ok true)) /\
  (forall mj ms mt : Z,
      isfile fs target = true ->
      getmtime fs json = Ok mj ->
      getmtime fs schema = Ok ms ->
      getmtime fs target = Ok mt ->
      (mj <= mt)%Z -> (ms > mt)%Z ->
      needs_rebuild fs json target = Ok false /\
      unit_needs_rebuild fs json schema target = Ok true).
Proof.
  split; [| split].
  - unfold unit_needs_rebuild.
    destruct (needs_rebuild fs json target) as [[|] | e]; simpl;
      intuition congruence.
  - intros Hjson.
    destruct (needs_rebuild_total fs json target Hjson) as [b Hb].
    unfold unit_needs_rebuild. rewrite Hb. simpl.
    destruct b; intuition congruence.
  - intros mj ms mt Ht Hj Hs Hm Hle Hgt.
    assert (Hjt : needs_rebuild fs json target = Ok false).
    { rewrite (needs_rebuild_compare _ _ _ _ _ Ht Hj Hm).
      destruct (Z.gtb_spec mj mt); (reflexivity || lia). }
    split; [exact Hjt |].
    unfold unit_needs_rebuild. rewrite Hjt. simpl.
    rewrite (needs_rebuild_compare _ _ _ _ _ Ht Hs Hm).
    destruct (Z.gtb_spec ms mt); (reflexivity || lia).
Qed.

(** The build loop runs the compiler for a unit exactly when the test
    returns true on the file system as it is once the target directory is
    there. *)
Lemma generate_json_decides (SDK_PATH : string) (dirname : string -> string)
    (makedirs : string -> io unit) (run_subprocess : list string -> io unit)
    (flatc input_path output_path schema json : string) (fs : filesystem) :
  let target := processed_json_path json input_path output_path in
  exists_ fs (dirname target) = true ->
  generate_json SDK_PATH dirname makedirs run_subprocess
                flatc input_path output_path schema json fs =
  match unit_needs_rebuild fs json schema target with
  | Ok true =>
      convert_json_to_flatbuffers_binary SDK_PATH run_subprocess
        flatc json schema (dirname target) fs
  | Ok false => (Ok tt, fs)
  | Raise e => (Raise e, fs)
  end.
Proof.
  intros target Hdir. unfold generate_json, io_bind, io_read, io_ret.
  fold target. rewrite Hdir. cbn [negb].
  destruct (unit_needs_rebuild fs json schema target) as [[|] | e];
    reflexivity.
Qed.

End Staleness.

(** * Classification *)

Section Classification.
Import Str Common Registry.

Lemma first_match_found (path : string) (l1 l2 : list (marker * string))
    (m : marker) (ext : string) :
  Forall (fun me => matches path me.1 = false) l1 ->
  matches path m = true ->
  first_match path (l1 ++ (m, ext) :: l2) = Some ext.
Proof.
  intros Hl1 Hm. induction Hl1 as [| [m' e'] l1 Hm' _ IH]; simpl.
  - now rewrite Hm.
  - simpl in Hm'. now rewrite Hm'.
Qed.

Lemma first_match_none (path : string) (reg : list (marker * string)) :
  Forall (fun me => matches path me.1 = false) reg ->
  first_match path reg = None.
Proof.
  intros H. induction H as [| [m e] reg Hm _ IH]; simpl; [reflexivity |].
  simpl in Hm. now rewrite Hm.
Qed.

Lemma processed_extension_classify (path : string) :
  processed_extension path = classify path.
Proof.
  unfold processed_extension, classify, registry, fallback.
  unfold SOUNDBANKS_DIR_NAME, COLLECTIONS_DIR_NAME, EVENTS_DIR_NAME,
    ATTENUATORS_DIR_NAME, SWITCHES_DIR_NAME, SWITCH_CONTAINERS_DIR_NAME,
    RTPC_DIR_NAME, SOUNDS_DIR_NAME, ENVIRONMENTS_DIR_NAME.
  cbn [first_match matches].
  repeat (case_if; [reflexivity |]). reflexivity.
Qed.

(** C3. The extension chosen by [processed_json_path] is the one of the
    first entry of the ordered registry whose marker matches the path:
    whatever entry matches while none before it does decides; the two
    suffix markers ([config.json], [buses.json]) stand before all
    directory-name markers; a path that matches no marker gets the
    generic fallback. *)
Theorem classify_first_match (path : string) :
  processed_extension path = classify path /\
  (forall l1 l2 m ext,
      registry = l1 ++ (m, ext) :: l2 ->
      Forall (fun me => matches path me.1 = false) l1 ->
      matches path m = true ->
      processed_extension path = ext) /\
  (Forall (fun me => matches path me.1 = false) registry ->
   processed_extension path = fallback) /\
  (exists suffixes dirs,
      registry = suffixes ++ dirs /\
      map fst suffixes = [Suffix "config.json"; Suffix "buses.json"] /\
      Forall (fun me => is_suffix me.1 = false) dirs).
Proof.
  split; [apply processed_extension_classify |].
  split; [| split].
  - intros l1 l2 m ext Hreg Hl1 Hm.
    rewrite processed_extension_classify. unfold classify.
    rewrite Hreg, (first_match_found _ _ _ _ _ Hl1 Hm). reflexivity.
  - intros Hnone. rewrite processed_extension_classify. unfold classify.
    now rewrite first_match_none.
  - exists (take 2 registry), (drop 2 registry).
    split; [reflexivity |]. split; [reflexivity |].
    repeat constructor.
Qed.

End Classification.

(** * Schema resolution and discovery *)

Section SchemaResolution.
Import Os Common Plan Scenario.

Lemma find_in_paths_found (fs : filesystem) (name : string)
    (l1 l2 : list string) (d : string) :
  Forall (fun p => isfile fs (join p [name]) = false) l1 ->
  isfile fs (join d [name]) = true ->
  find_in_paths fs name (l1 ++ d :: l2) = join d [name].
Proof.
  intros Hl1 Hd. induction Hl1 as [| p l1 Hp _ IH]; cbn [app find_in_paths].
  - now rewrite Hd.
  - now rewrite Hp.
Qed.

Lemma find_in_paths_missing (fs : filesystem) (name : string)
    (paths : list string) :
  Forall (fun p => isfile fs (join p [name]) = false) paths ->
  find_in_paths fs name paths = name.
Proof.
  intros H. induction H as [| p l Hp _ IH]; cbn [find_in_paths];
    [reflexivity | now rewrite Hp].
Qed.

(** C7. [find_in_paths] searches the directories in order and returns
    the name joined to the first directory that holds a file of that
    name; when no directory holds one it returns the bare name.  The plan
    is built all the same: with no schema file anywhere on the search
    path, [get_conversion_data] returns its eleven entries with the bare
    schema identifiers. *)
Theorem find_in_paths_spec (fs : filesystem) (name : string)
    (paths : list string) :
  (forall l1 l2 d,
      paths = l1 ++ d :: l2 ->
      Forall (fun p => isfile fs (join p [name]) = false) l1 ->
      isfile fs (join d [name]) = true ->
      find_in_paths fs name paths = join d [name]) /\
  (Forall (fun p => isfile fs (join p [name]) = false) paths ->
   find_in_paths fs name paths = name) /\
  (forall glob SDK_PATH project_path,
      (forall p id, In p (SCHEMA_PATHS SDK_PATH) ->
                    isfile fs (join p [id]) = false) ->
      map schema (get_conversion_data glob SDK_PATH fs project_path) =
        [ "engine_config_definition.bfbs"; "buses_definition.bfbs";
          "sound_bank_definition.bfbs"; "collection_definition.bfbs";
          "sound_definition.bfbs"; "event_definition.bfbs";
          "attenuation_definition.bfbs"; "switch_definition.bfbs";
          "switch_container_definition.bfbs"; "rtpc_definition.bfbs";
          "effect_definition.bfbs" ]).
Proof.
  split; [| split].
  - intros l1 l2 d -> Hl1 Hd. now apply find_in_paths_found.
  - apply find_in_paths_missing.
  - intros glob SDK_PATH project_path Hnone.
    assert (H : forall id, find_in_paths fs id (SCHEMA_PATHS SDK_PATH) = id).
    { intros id. apply find_in_paths_missing, Forall_forall.
      intros p Hp. apply Hnone. now apply list_elem_of_In. }
    unfold get_conversion_data. cbn [map schema]. now rewrite !H.
Qed.

Lemma get_conversion_data_inputs (glob : string -> bool -> list string)
    (SDK_PATH : string) (fs : filesystem) (project_path : string) :
  map input_files (get_conversion_data glob SDK_PATH fs project_path) =
  map (fun pr => glob pr.1 pr.2) (discovery_patterns project_path).
Proof. reflexivity. Qed.

(** C6. The plan builder does not enumerate environment definitions:
    the directory has its constant and its extension in
    [processed_json_path], yet a project holding only
    [environments/room.json] gets a plan of eleven entries without any
    input file.  (Effect definitions are enumerated, but have no
    extension of their own: they resolve to the generic one.) *)
Theorem environments_not_enumerated (SDK_PATH : string) (fs : filesystem) :
  glob_environment_only
    (join "proj" [ENVIRONMENTS_DIR_NAME; "**/*.json"]) true
    = ["proj/environments/room.json"] /\
  processed_extension "proj/environments/room.json" = ".amenv" /\
  processed_extension "proj/effects/reverb.json" = ".ambin" /\
  concat (map input_files
            (get_conversion_data glob_environment_only SDK_PATH fs "proj"))
    = [] /\
  length (get_conversion_data glob_environment_only SDK_PATH fs "proj")
    = 11%nat.
Proof. repeat split; reflexivity. Qed.

End SchemaResolution.

(** * Cleaning *)

Section Cleaning.
Import Os Common Plan.

Lemma isfile_delete (fs : filesystem) (p q : string) :
  isfile (delete q fs) p = if decide (q = p) then false else isfile fs p.
Proof.
  unfold isfile. rewrite lookup_delete. now destruct (decide (q = p)).
Qed.

Lemma remove_files_lookup (paths : list string) (fs : filesystem)
    (p : string) :
  remove_files paths fs !! p =
    if isfile fs p && bool_decide (p ∈ paths) then None else fs !! p.
Proof.
  revert fs. induction paths as [| q paths IH]; intros fs.
  - now rewrite andb_false_r.
  - change (remove_files (q :: paths) fs)
      with (remove_files paths (if isfile fs q then remove fs q else fs)).
    rewrite IH. unfold remove.
    destruct (decide (q = p)) as [-> | Hne].
    + rewrite (bool_decide_eq_true_2 (p ∈ p :: paths)) by left.
      rewrite andb_true_r.
      destruct (isfile fs p) eqn:Hp.
      * rewrite isfile_delete, decide_True by reflexivity. simpl.
        apply lookup_delete_eq.
      * now rewrite Hp.
    + assert (Hin : bool_decide (p ∈ q :: paths) = bool_decide (p ∈ paths)).
      { apply bool_decide_ext. rewrite elem_of_cons.
        split; [intros [Heq | Hp]; [congruence | exact Hp] | now right]. }
      rewrite Hin.
      destruct (isfile fs q).
      * rewrite isfile_delete, decide_False by assumption.
        now rewrite lookup_delete_ne.
      * reflexivity.
Qed.

Lemma clean_inner_loop (input_path output_path : string)
    (jsons : list string) (fs : filesystem) :
  fold_left (clean_json input_path output_path) jsons fs =
  remove_files
    (map (fun json => processed_json_path json input_path output_path) jsons)
    fs.
Proof.
  revert fs. induction jsons as [| j jsons IH]; intros fs; [reflexivity |].
  cbn [fold_left map]. rewrite IH. reflexivity.
Qed.

Lemma clean_is_remove_files (data : list FlatbuffersConversionData)
    (input_path output_path : string) (fs : filesystem) :
  clean_flatbuffers_binaries data input_path output_path fs =
  remove_files (resolved_outputs data input_path output_path) fs.
Proof.
  unfold clean_flatbuffers_binaries, resolved_outputs.
  revert fs. induction data as [| el data IH]; intros fs; [reflexivity |].
  cbn [fold_left flat_map]. rewrite IH, clean_inner_loop.
  unfold remove_files. now rewrite fold_left_app.
Qed.


Lemma sample_tree_clean_is_remove_files (PROJECT_ROOT : string)
    (data : list FlatbuffersConversionData) (target : string)
    (fs : filesystem) :
  BuildAssets.clean_flatbuffer_binaries_body PROJECT_ROOT data target fs =
  remove_files
    (flat_map
       (fun element =>
          map (fun json =>
                 BuildAssets.processed_json_path PROJECT_ROOT json target)
              (input_files element))
       data)
    fs.
Proof.
  unfold BuildAssets.clean_flatbuffer_binaries_body.
  revert fs. induction data as [| el data IH]; intros fs; [reflexivity |].
  cbn [fold_left flat_map]. rewrite IH. unfold remove_files.
  rewrite fold_left_app. f_equal.
  generalize (input_files el) fs. clear.
  intros l. induction l as [| j l IHl]; intros fs; [reflexivity |].
  cbn [fold_left map]. now rewrite IHl.
Qed.


(** C9. In the sample-tree variant [clean()] calls
    [clean_flatbuffer_binaries] without the argument its one parameter
    requires: every call raises [TypeError] and the file system is
    untouched, whatever the plan and the tree.  The [except OSError] of
    [main] does not catch it, so the clean run of the script ends with the
    same exception and nothing deleted; only a call that passes a target
    directory reaches the deleting loop. *)
Theorem build_assets_clean_raises (PROJECT_ROOT : string)
    (FLATBUFFERS_CONVERSION_DATA : list FlatbuffersConversionData)
    (fs : filesystem) :
  BuildAssets.clean PROJECT_ROOT FLATBUFFERS_CONVERSION_DATA fs
    = (Raise TypeError, fs) /\
  BuildAssets.main_clean PROJECT_ROOT FLATBUFFERS_CONVERSION_DATA fs
    = (Raise TypeError, fs) /\
  (forall args,
      fst (BuildAssets.clean_flatbuffer_binaries
             PROJECT_ROOT FLATBUFFERS_CONVERSION_DATA args fs) = Ok tt <->
      exists target_directory, args = [target_directory]).
Proof.
  split; [reflexivity |]. split; [reflexivity |].
  intros args. unfold BuildAssets.clean_flatbuffer_binaries. split.
  - destruct args as [| d [| d' args]]; simpl; try discriminate.
    intros _. now exists d.
  - intros [d ->]. reflexivity.
Qed.

End Cleaning.

(** * Path resolution *)

Section PathResolution.
Import Str Os Common Plan.

(** Every extension of the chain is a dot followed by letters that
    contain neither a dot nor a [j], start differently from [json], and
    is longer than [".json"]. *)
Lemma processed_extension_shape (path : string) :
  exists n,
    processed_extension path = String "." n /\
    count "." n = O /\
    count "j" n = O /\
    match "json", n with
    | String a _, String b _ => Ascii.eqb a b = false
    | _, _ => False
    end /\
    (5 <= String.length n)%nat.
Proof.
  unfold processed_extension.
  repeat case_if;
    eexists; (split; [reflexivity |]); repeat split; simpl; lia.
Qed.

Lemma intersperse_startswith (new s : string) :
  startswith (intersperse new s) new = true.
Proof.
  destruct s; cbn [intersperse];
    [rewrite <- (app_nil_r new) at 1 |]; apply startswith_app.
Qed.

(** When the scanned string begins with [old], so does the result begin
    with [new]. *)
Lemma replace_startswith (old new r : string) :
  startswith (replace (old +:+ r) old new) new = true.
Proof.
  destruct old as [|a o] eqn:E.
  - apply intersperse_startswith.
  - rewrite <- E. rewrite replace_hit by (rewrite E; discriminate).
    apply startswith_app.
Qed.

(** What [os.path.join] makes of a root and a relative path. *)
Lemma join_relative (root rel : string) :
  startswith rel "/" = false ->
  (root = "" /\ join root [rel] = rel) \/
  (exists a, root = a +:+ "/" /\ join root [rel] = a +:+ String "/" rel) \/
  (join root [rel] = root +:+ String "/" rel).
Proof.
  intros Hrel. unfold join. cbn [fold_left]. unfold join2. rewrite Hrel.
  destruct (String.eqb_spec root "") as [-> | Hne]; [now left |].
  right. cbn [orb].
  destruct (endswith root "/") eqn:E; [left | now right].
  apply endswith_iff in E as [a ->]. exists a. split; [reflexivity |].
  apply app_assoc.
Qed.

Lemma endswith_contains (s w : string) :
  endswith s w = true -> contains s w = true.
Proof.
  intros H. apply endswith_iff in H as [a ->]. apply contains_iff.
  exists a, "". now rewrite app_nil_r.
Qed.

(** The extension substitution makes a path that holds [".json"]
    strictly longer and strictly poorer in [j]s, and leaves no [".json"]
    behind. *)
Lemma extension_substitution (path : string) :
  let s1 := replace path ".json" (processed_extension path) in
  contains s1 ".json" = false /\
  (contains path ".json" = true ->
   (String.length path < String.length s1)%nat /\
   (count "j" s1 < count "j" path)%nat).
Proof.
  destruct (processed_extension_shape path) as (n & -> & Hdot & Hj & Hdiff & Hlen).
  cbn zeta. split.
  - now apply replace_no_old_left.
  - intros Hc. split.
    + apply replace_length_gt; [simpl; lia | exact Hc].
    + apply replace_count_lt; [| exact Hc].
      cbn [count]. rewrite Hj. simpl. lia.
Qed.

Lemma processed_json_path_differs (root rel out : string) :
  startswith rel "/" = false ->
  endswith rel ".json" = true ->
  processed_json_path (join root [rel]) root out <> join root [rel].
Proof.
  intros Hrel Hjson.
  set (path := join root [rel]).
  assert (Hunder : exists y, path = root +:+ y /\
            (root <> "" -> contains root ".json" = false ->
             exists a r, path = a +:+ String "/" r /\
                         contains a ".json" = false /\
                         forall t, exists y', a +:+ String "/" t = root +:+ y')).
  { destruct (join_relative root rel Hrel)
      as [[-> Hp] | [(a & -> & Hp) | Hp]]; fold path in Hp; rewrite Hp.
    - exists rel. split; [reflexivity |]. congruence.
    - exists rel. split; [now rewrite app_assoc |].
      intros _ Hroot. exists a, rel. split; [reflexivity |]. split.
      + destruct (contains a ".json") eqn:E; [| reflexivity].
        now rewrite (contains_app_l _ "/" _ E) in Hroot.
      + intros t. exists t. now rewrite app_assoc.
    - exists (String "/" rel). split; [reflexivity |].
      intros _ Hroot. exists root, rel. split; [reflexivity |].
      split; [assumption |]. intros t. now exists (String "/" t). }
  destruct Hunder as (y & Hpath & Hsplit).
  assert (Hc : contains path ".json" = true).
  { apply endswith_contains. rewrite Hpath.
    destruct (join_relative root rel Hrel)
      as [[_ Hp] | [(a & _ & Hp) | Hp]]; fold path in Hp;
      rewrite <- Hpath, Hp;
      [assumption | apply endswith_app | apply endswith_app];
      cbn [endswith]; rewrite Hjson; apply orb_true_r. }
  unfold processed_json_path. fold path.
  destruct (extension_substitution path) as [Hclean Hgrow].
  destruct (Hgrow Hc) as [Hlen Hcount]. clear Hgrow.
  set (s1 := replace path ".json" (processed_extension path)) in *.
  intros Heq.
  destruct (le_lt_dec (String.length root) (String.length out)) as [Hle | Hlt].
  { pose proof (replace_length_ge s1 root out Hle) as H.
    rewrite Heq in H. lia. }
  assert (Hroot : root <> "") by (intros ->; simpl in Hlt; lia).
  destruct (contains root ".json") eqn:Hrj.
  - assert (Habs : contains s1 root = false).
    { destruct (contains s1 root) eqn:E; [| reflexivity].
      now rewrite (contains_trans _ _ _ E Hrj) in Hclean. }
    rewrite (replace_absent _ _ _ Habs) in Heq. rewrite Heq in Hlen. lia.
  - destruct (Hsplit Hroot eq_refl) as (a & r & Hp & Ha & Hback).
    assert (Hs1 : exists y', s1 = root +:+ y').
    { subst s1. rewrite Hp.
      rewrite replace_past_root by (assumption || reflexivity).
      apply Hback. }
    destruct Hs1 as [y' Hs1]. rewrite Hs1, replace_hit in Heq by assumption.
    rewrite Hpath in Heq.
    destruct (prefix_of_longer _ _ _ _ Heq) as [z Hz]; [lia |].
    pose proof (replace_count_le "j" s1 root out Hroot) as Hcnt.
    rewrite Hs1, replace_hit in Hcnt by assumption.
    rewrite Heq, <- Hpath, <- Hs1 in Hcnt.
    rewrite Hz, count_app in Hcnt. lia.
Qed.

(** C10. A unit discovered under the input root (its path is the root
    joined with a relative path that ends in [.json]) never has its own
    input as resolved output: the path [clean] tests and removes for it
    differs from the input path, and the step of the loop for this unit
    leaves the input file as it was. *)
Theorem clean_spares_source (root rel out : string) (fs : filesystem) :
  startswith rel "/" = false ->
  endswith rel ".json" = true ->
  let json := join root [rel] in
  processed_json_path json root out <> json /\
  clean_json root out fs json !! json = fs !! json.
Proof.
  intros Hrel Hjson json.
  pose proof (processed_json_path_differs root rel out Hrel Hjson) as Hne.
  fold json in Hne. split; [exact Hne |].
  unfold clean_json.
  destruct (isfile fs (processed_json_path json root out)); [| reflexivity].
  unfold remove. now apply lookup_delete_ne.
Qed.

(** Where the resolver does what its docstring says.  For an input
    joined from the root and a relative path, with a root that holds no
    [".json"], the result begins with the output root, also for a root
    with a trailing slash and for the empty root. *)
Lemma processed_json_path_begins_with_output_root (root rel out : string) :
  startswith rel "/" = false ->
  contains root ".json" = false ->
  startswith (processed_json_path (join root [rel]) root out) out = true.
Proof.
  intros Hrel Hroot. unfold processed_json_path.
  destruct (join_relative root rel Hrel) as [[-> Hp] | [(a & -> & Hp) | Hp]];
    rewrite Hp.
  - apply (replace_startswith "" out).
  - assert (Ha : contains a ".json" = false).
    { destruct (contains a ".json") eqn:E; [| reflexivity].
      now rewrite (contains_app_l _ "/" _ E) in Hroot. }
    rewrite replace_past_root by (assumption || reflexivity).
    match goal with
    | |- context [a +:+ String "/" ?r] =>
        change (a +:+ String "/" r) with (a +:+ "/" +:+ r);
        rewrite <- (app_assoc a "/" r)
    end.
    apply replace_startswith.
  - rewrite replace_past_root by (assumption || reflexivity).
    apply replace_startswith.
Qed.

(** When moreover the relative path ends in [".json"] and the root does
    not occur again behind itself once the extension is substituted, the
    result is the output root followed by ["/"] and the relative path
    with the extension substituted, and it ends with the extension of
    the path's category. *)
Lemma processed_json_path_under_plain_root (root rel out : string) :
  let path := root +:+ "/" +:+ rel in
  let ext := processed_extension path in
  let rel' := replace rel ".json" ext in
  contains root ".json" = false ->
  contains ("/" +:+ rel') root = false ->
  endswith rel ".json" = true ->
  processed_json_path path root out = out +:+ "/" +:+ rel' /\
  endswith (processed_json_path path root out) ext = true.
Proof.
  intros path ext rel' Hroot Hfree Hjson.
  assert (Hs1 : replace path ".json" ext = root +:+ "/" +:+ rel').
  { subst path rel'.
    change (root +:+ "/" +:+ rel) with (root +:+ String "/" rel).
    now rewrite replace_past_root. }
  unfold processed_json_path. fold ext. rewrite Hs1.
  assert (Hne : root <> "").
  { intros ->. now rewrite contains_startswith in Hfree. }
  rewrite replace_hit, (replace_absent _ _ _ Hfree) by assumption.
  split; [reflexivity |].
  do 2 apply endswith_app. subst rel'.
  apply replace_endswith; [reflexivity | exact Hjson].
Qed.


End PathResolution.

(** * The statements on sample projects *)

Section Samples.
Import Str Os Common Plan Registry Scenario.

(** C4. The resolver breaks the claim on inputs that lie under the input
    root.  Under the project root ["."] (a project built from its own
    directory) every dot of the path is taken for the root: the result
    for [./sounds/a.json] begins with the output root but does not end
    with the sound extension.  Under a root that holds [".json"] the root
    is no longer found after the extension substitution, and the result
    does not begin with the output root. *)
Theorem resolve_output_path_mangled :
  (join "." ["sounds/a.json"] = "./sounds/a.json" /\
   processed_extension "./sounds/a.json" = ".amsound" /\
   processed_json_path "./sounds/a.json" "." "build"
     = "build/sounds/abuildamsound" /\
   endswith (processed_json_path "./sounds/a.json" "." "build")
            (processed_extension "./sounds/a.json") = false) /\
  (join "a.json.d" ["sounds/x.json"] = "a.json.d/sounds/x.json" /\
   processed_json_path "a.json.d/sounds/x.json" "a.json.d" "out"
     = "a.amsound.d/sounds/x.amsound" /\
   startswith (processed_json_path "a.json.d/sounds/x.json" "a.json.d" "out")
              "out" = false).
Proof. repeat split; reflexivity. Qed.


Lemma needs_rebuild_spec_witness :
  isfile fs_built "out/events/b.amevent" = true /\
  needs_rebuild fs_built "proj/events/b.json" "out/events/b.amevent"
    = Ok false.
Proof.
  split; [reflexivity |].
  destruct (needs_rebuild_spec fs_built "proj/events/b.json"
              "out/events/b.amevent") as [_ H].
  destruct (H 10%Z 40%Z) as [_ H2]; [reflexivity | reflexivity | reflexivity |].
  apply H2. lia.
Defined.

Lemma unit_rebuild_test_spec_witness :
  needs_rebuild fs_built "proj/sounds/a.json" "out/sounds/a.amsound"
    = Ok false /\
  unit_needs_rebuild fs_built "proj/sounds/a.json"
    "sdk/schemas/sound_definition.bfbs" "out/sounds/a.amsound" = Ok true.
Proof.
  destruct (unit_rebuild_test_spec fs_built "proj/sounds/a.json"
              "sdk/schemas/sound_definition.bfbs" "out/sounds/a.amsound")
    as (_ & _ & H).
  apply (H 10%Z 30%Z 20%Z); try reflexivity; lia.
Defined.

Lemma classify_first_match_witness :
  matches "proj/sounds/audio_config.json" (DirName "sounds") = true /\
  processed_extension "proj/sounds/audio_config.json" = ".amconfig".
Proof.
  split; [reflexivity |].
  destruct (classify_first_match "proj/sounds/audio_config.json")
    as (_ & H & _).
  apply (H [] (tl registry) (Suffix "config.json"));
    [reflexivity | constructor | reflexivity].
Defined.

Lemma find_in_paths_spec_witness :
  find_in_paths fs_built "sound_definition.bfbs" ["sdk/bin"; "sdk/schemas"]
    = "sdk/schemas/sound_definition.bfbs".
Proof.
  destruct (find_in_paths_spec fs_built "sound_definition.bfbs"
              ["sdk/bin"; "sdk/schemas"]) as (H & _ & _).
  apply (H ["sdk/bin"] [] "sdk/schemas");
    [reflexivity | repeat constructor | reflexivity].
Defined.


Lemma build_assets_clean_raises_witness :
  BuildAssets.main_clean "repo" plan_built fs_built
    = (Raise TypeError, fs_built) /\
  fst (BuildAssets.clean_flatbuffer_binaries "repo" plan_built ["out"] fs_built)
    = Ok tt.
Proof.
  destruct (build_assets_clean_raises "repo" plan_built fs_built)
    as (_ & Hmain & Hcall).
  split; [exact Hmain |]. apply Hcall. now exists "out".
Defined.

Lemma clean_spares_source_witness :
  processed_json_path (join "proj" ["sounds/a.json"]) "proj" "out"
    <> join "proj" ["sounds/a.json"] /\
  clean_json "proj" "out" fs_built (join "proj" ["sounds/a.json"])
    !! join "proj" ["sounds/a.json"]
  = fs_built !! join "proj" ["sounds/a.json"].
Proof.
  apply (clean_spares_source "proj" "sounds/a.json" "out" fs_built);
    reflexivity.
Defined.


End Samples.


(** * Further properties of the staleness test *)

Section StalenessEdges.
Import Os Common.

Lemma isfile_lookup (fs : filesystem) (p : string) :
  isfile fs p = true -> exists t, fs !! p = Some (File t).
Proof.
  unfold isfile. destruct (fs !! p) as [[t | t] |]; try discriminate.
  intros _. now exists t.
Qed.




(** X3. Among regular files the test orders by modification time: two
    files are never each stale against the other, and being up to date
    carries along a chain (if [b] is up to date with [a] and [c] with [b],
    then [c] is up to date with [a]). *)
Theorem needs_rebuild_orders_files (fs : filesystem) (a b c : string) :
  isfile fs a = true -> isfile fs b = true -> isfile fs c = true ->
  (needs_rebuild fs a b = Ok true -> needs_rebuild fs b a = Ok false) /\
  (needs_rebuild fs a b = Ok false -> needs_rebuild fs b c = Ok false ->
   needs_rebuild fs a c = Ok false).
Proof.
  intros Ha Hb Hc.
  destruct (isfile_lookup _ _ Ha) as [ta Hta].
  destruct (isfile_lookup _ _ Hb) as [tb Htb].
  destruct (isfile_lookup _ _ Hc) as [tc Htc].
  unfold needs_rebuild, getmtime.
  rewrite Ha, Hb, Hc, Hta, Htb, Htc. cbn [negb bind mtime_of].
  split.
  - intros [= H]. f_equal. lia.
  - intros [= H1] [= H2]. f_equal. lia.
Qed.

End StalenessEdges.

(** * Further properties of the schema search *)

Section SchemaSearch.
Import Os Common.

(** X4. What [find_in_paths] returns is the bare name, or the name
    joined to one of the directories and then a regular file: it never
    returns a path under a search directory that is not there. *)
Theorem find_in_paths_result (fs : filesystem) (name : string)
    (paths : list string) :
  find_in_paths fs name paths = name \/
  exists d, In d paths /\
            find_in_paths fs name paths = join d [name] /\
            isfile fs (find_in_paths fs name paths) = true.
Proof.
  induction paths as [| p paths IH]; [now left |].
  cbn [find_in_paths].
  destruct (isfile fs (join p [name])) eqn:E.
  - right. exists p. split; [now left |]. now split.
  - destruct IH as [IH | (d & Hd & Heq & Hf)]; [now left |].
    right. exists d. split; [now right |]. now split.
Qed.

(** X5. An absolute name is returned as it is, whatever the search
    directories hold and whether or not the file is there:
    [os.path.join] drops the directory in front of it. *)
Theorem find_in_paths_absolute (fs : filesystem) (name : string)
    (paths : list string) :
  Str.startswith name "/" = true ->
  find_in_paths fs name paths = name.
Proof.
  intros Habs. induction paths as [| p paths IH]; [reflexivity |].
  cbn [find_in_paths].
  assert (Hj : join p [name] = name).
  { unfold join. cbn [fold_left]. unfold join2. now rewrite Habs. }
  rewrite Hj, IH. now destruct (isfile fs name).
Qed.

(** X6. Searching two lists of directories one after the other:
    the second list is consulted only when no directory of the first
    holds the file. *)
Theorem find_in_paths_app (fs : filesystem) (name : string)
    (l1 l2 : list string) :
  find_in_paths fs name (l1 ++ l2) =
    if existsb (fun d => isfile fs (join d [name])) l1
    then find_in_paths fs name l1
    else find_in_paths fs name l2.
Proof.
  induction l1 as [| p l1 IH]; [reflexivity |].
  cbn [app find_in_paths existsb].
  destruct (isfile fs (join p [name])); [reflexivity | exact IH].
Qed.

End SchemaSearch.

(** * Further properties of cleaning *)

Section CleaningMore.
Import Os Common Plan.

Lemma remove_files_isfile (paths : list string) (fs : filesystem)
    (p : string) :
  isfile (remove_files paths fs) p
    = isfile fs p && negb (bool_decide (p ∈ paths)).
Proof.
  unfold isfile at 1. rewrite remove_files_lookup.
  destruct (isfile fs p) eqn:Hp; cbn [andb].
  - destruct (bool_decide (p ∈ paths)); [reflexivity |]. exact Hp.
  - exact Hp.
Qed.

(** X7. Cleaning twice is cleaning once. *)
Theorem clean_idempotent (data : list FlatbuffersConversionData)
    (input_path output_path : string) (fs : filesystem) :
  clean_flatbuffers_binaries data input_path output_path
    (clean_flatbuffers_binaries data input_path output_path fs)
  = clean_flatbuffers_binaries data input_path output_path fs.
Proof.
  rewrite !clean_is_remove_files. apply map_eq. intros p.
  rewrite remove_files_lookup, remove_files_isfile.
  destruct (isfile fs p), (bool_decide (p ∈ resolved_outputs data input_path output_path));
    reflexivity.
Qed.

(** X8. Cleaning only takes away: every path that is there afterwards
    was there before, a regular file that is left is as it was, and every
    directory is still a directory (a directory that sits at a resolved
    output path included). *)
Theorem clean_only_removes_files (data : list FlatbuffersConversionData)
    (input_path output_path : string) (fs : filesystem) :
  let fs' := clean_flatbuffers_binaries data input_path output_path fs in
  (forall p, is_Some (fs' !! p) -> is_Some (fs !! p)) /\
  (forall p t, fs' !! p = Some (File t) -> fs !! p = Some (File t)) /\
  (forall p t, fs !! p = Some (Directory t) ->
               exists t', fs' !! p = Some (Directory t')).
Proof.
  intros fs'. subst fs'. rewrite clean_is_remove_files.
  split; [| split].
  - intros p. rewrite remove_files_lookup.
    destruct (isfile fs p && _); [intros [n Hn]; discriminate | trivial].
  - intros p t. rewrite remove_files_lookup.
    destruct (isfile fs p && _); [discriminate | trivial].
  - intros p t Hp. exists t. rewrite remove_files_lookup.
    unfold isfile. now rewrite Hp.
Qed.



End CleaningMore.

(** * The build loop *)

Section BuildLoop.
Import Os Common.

Lemma for_each_app {A : Type} (l1 l2 : list A) (body : A -> io unit)
    (fs : filesystem) :
  for_each (l1 ++ l2) body fs =
    match for_each l1 body fs with
    | (Ok _, fs') => for_each l2 body fs'
    | (Raise e, fs') => (Raise e, fs')
    end.
Proof.
  revert fs. induction l1 as [| x l1 IH]; intros fs; [reflexivity |].
  cbn [app for_each]. unfold io_bind.
  destruct (body x fs) as [[u | e] fs1]; [apply IH | reflexivity].
Qed.

Lemma for_each_unchanged {A : Type} (l : list A) (body : A -> io unit)
    (fs : filesystem) :
  (forall x, In x l -> body x fs = (Ok tt, fs)) ->
  for_each l body fs = (Ok tt, fs).
Proof.
  induction l as [| x l IH]; intros H; [reflexivity |].
  cbn [for_each]. unfold io_bind. rewrite (H x) by now left.
  apply IH. intros y Hy. apply H. now right.
Qed.

Variable SDK_PATH : string.
Variable dirname : string -> string.
Variable makedirs : string -> io unit.
Variable run_subprocess : list string -> io unit.

Local Abbreviation generate :=
  (generate_flatbuffers_binaries SDK_PATH dirname makedirs run_subprocess).
Local Abbreviation generate_one :=
  (generate_json SDK_PATH dirname makedirs run_subprocess).

(** X11. On a tree that is built (every unit's target directory is
    there and its rebuild test returns false) the build loop returns
    without raising and leaves the file system as it is; neither
    [makedirs] nor the compiler is run, whatever they would do. *)
Theorem generate_up_to_date (flatc : string)
    (data : list FlatbuffersConversionData)
    (input_path output_path : string) (fs : filesystem) :
  (forall element json,
      In element data -> In json (input_files element) ->
      let target := processed_json_path json input_path output_path in
      exists_ fs (dirname target) = true /\
      unit_needs_rebuild fs json (schema element) target = Ok false) ->
  generate flatc data input_path output_path fs = (Ok tt, fs).
Proof.
  intros Hbuilt. unfold generate_flatbuffers_binaries.
  apply for_each_unchanged. intros element Hel. cbv zeta.
  apply for_each_unchanged. intros json Hjson.
  pose proof (Hbuilt element json Hel Hjson) as H. cbv zeta in H.
  destruct H as [Hdir Hfresh].
  unfold generate_json, io_bind, io_read, io_ret. cbv zeta.
  rewrite Hdir. cbn [negb]. now rewrite Hfresh.
Qed.

(** X12. Building a plan made of two parts is building the first and,
    if that did not raise, the second on the file system the first left;
    an exception in the first part ends the loop there, and no unit of
    the second part is looked at. *)
Theorem generate_plans_compose (flatc : string)
    (data1 data2 : list FlatbuffersConversionData)
    (input_path output_path : string) (fs : filesystem) :
  generate flatc (data1 ++ data2) input_path output_path fs =
    match generate flatc data1 input_path output_path fs with
    | (Ok _, fs') => generate flatc data2 input_path output_path fs'
    | (Raise e, fs') => (Raise e, fs')
    end.
Proof. apply for_each_app. Qed.


End BuildLoop.

(** * Further properties of path resolution *)

Section PathEdges.
Import Str Os Common Plan Registry CommonRest.
Local Arguments String.append !_ _ / : simpl nomatch.

Lemma intersperse_empty (s : string) : intersperse "" s = s.
Proof. induction s as [|c s IH]; simpl; [reflexivity | now rewrite IH]. Qed.

Lemma replace_same (s old : string) : replace s old old = s.
Proof.
  destruct old as [|a o] eqn:E; [apply intersperse_empty |].
  rewrite <- E.
  apply replace_ind with (P := fun r t => t = r).
  - rewrite E. discriminate.
  - reflexivity.
  - intros r t ->. reflexivity.
  - intros c r t _ ->. reflexivity.
Qed.

Lemma join_relative_prefix (root rel : string) :
  startswith rel "/" = false -> exists y, join root [rel] = root +:+ y.
Proof.
  intros Hrel.
  destruct (join_relative root rel Hrel) as [[-> H] | [(a & -> & H) | H]];
    rewrite H.
  - now exists rel.
  - exists rel. now rewrite app_assoc.
  - now exists (String "/" rel).
Qed.

(** X14. Building into the project directory itself (output root equal
    to input root) changes nothing but the extension; for an input that
    ends in [".json"] the result ends with the category's extension and
    differs from the input. *)
Theorem processed_json_path_in_place (path root : string) :
  processed_json_path path root root
    = replace path ".json" (processed_extension path) /\
  (endswith path ".json" = true ->
   endswith (processed_json_path path root root) (processed_extension path)
     = true /\
   processed_json_path path root root <> path).
Proof.
  unfold processed_json_path. rewrite replace_same.
  split; [reflexivity |]. intros Hjson. split.
  - now apply replace_endswith.
  - destruct (extension_substitution path) as [_ H].
    destruct (H (endswith_contains _ _ Hjson)) as [Hlen _].
    intros Heq. rewrite Heq in Hlen. lia.
Qed.

(** X15. The directory-name markers are looked for in the whole path,
    the project root included: a marker that occurs in the root decides
    the extension of every file discovered under that root, unless an
    earlier entry of the registry matches the file. *)
Theorem root_marker_classifies (root rel m ext : string)
    (l1 l2 : list (marker * string)) :
  startswith rel "/" = false ->
  registry = l1 ++ (DirName m, ext) :: l2 ->
  contains root m = true ->
  Forall (fun me => matches (join root [rel]) me.1 = false) l1 ->
  processed_extension (join root [rel]) = ext.
Proof.
  intros Hrel Hreg Hroot Hl1.
  destruct (join_relative_prefix root rel Hrel) as [y Hy].
  rewrite processed_extension_classify. unfold classify. rewrite Hreg.
  rewrite (first_match_found _ l1 l2 (DirName m) ext Hl1); [reflexivity |].
  cbn [matches]. rewrite Hy. now apply contains_app_l.
Qed.

Lemma sample_tree_output_clean (PROJECT_ROOT path target : string) :
  contains (BuildAssets.processed_json_path PROJECT_ROOT path target) ".json"
    = false.
Proof.
  unfold BuildAssets.processed_json_path.
  now apply (replace_no_old_left "." "json" eq_refl "bin" eq_refl).
Qed.

(** X16. In the sample-tree variant the extension is substituted last:
    a resolved output path never holds [".json"], whatever the input path
    and the target directory, and so never is an input path that holds
    it. *)
Theorem sample_tree_output_never_json (PROJECT_ROOT path target : string) :
  contains (BuildAssets.processed_json_path PROJECT_ROOT path target) ".json"
    = false /\
  (forall json, contains json ".json" = true ->
                BuildAssets.processed_json_path PROJECT_ROOT path target
                  <> json).
Proof.
  split; [apply sample_tree_output_clean |].
  intros json Hjson Heq.
  pose proof (sample_tree_output_clean PROJECT_ROOT path target) as H.
  rewrite Heq in H. congruence.
Qed.

(** X17. The deleting loop of the sample-tree variant, run with a target
    directory, leaves every path that holds [".json"] as it was, whatever
    the plan and the directories: it cannot delete a description file. *)
Theorem sample_tree_clean_spares_json (PROJECT_ROOT : string)
    (data : list FlatbuffersConversionData) (target : string)
    (fs : filesystem) (p : string) :
  contains p ".json" = true ->
  BuildAssets.clean_flatbuffer_binaries_body PROJECT_ROOT data target fs !! p
    = fs !! p.
Proof.
  intros Hp. rewrite sample_tree_clean_is_remove_files, remove_files_lookup.
  rewrite bool_decide_eq_false_2; [now rewrite andb_false_r |].
  intros Hin. apply list_elem_of_In, in_flat_map in Hin as (el & _ & Hin).
  apply in_map_iff in Hin as (json & Heq & _).
  pose proof (sample_tree_output_clean PROJECT_ROOT json target) as H.
  rewrite Heq in H. congruence.
Qed.

(** *** File names *)

Lemma basename_no_slash (s : string) :
  contains (OsPath.basename s) "/" = false.
Proof.
  induction s as [|c r IH]; [reflexivity |].
  cbn [OsPath.basename].
  destruct (contains r "/") eqn:Hr; [exact IH |].
  destruct (Ascii.eqb_spec c "/") as [-> | Hc]; [exact Hr |].
  cbn [contains startswith]. rewrite Hr.
  destruct (Ascii.eqb_spec "/" c) as [<- | _]; [congruence | reflexivity].
Qed.

Lemma basename_id (s : string) :
  contains s "/" = false -> OsPath.basename s = s.
Proof.
  destruct s as [|c r]; [reflexivity |].
  intros H. apply contains_false_tail in H as [Hc Hr].
  cbn [OsPath.basename]. rewrite Hr.
  cbn [startswith] in Hc. rewrite andb_true_r in Hc.
  now rewrite Ascii.eqb_sym, Hc.
Qed.

Lemma basename_after_slash (a r : string) :
  OsPath.basename (a +:+ String "/" r) = OsPath.basename r.
Proof.
  induction a as [|c a IH].
  - change ("" +:+ String "/" r) with (String "/" r).
    cbn [OsPath.basename]. destruct (contains r "/") eqn:Hr; [reflexivity |].
    cbn. now rewrite basename_id.
  - change (String c a +:+ String "/" r) with (String c (a +:+ String "/" r)).
    cbn [OsPath.basename].
    assert (H : contains (a +:+ String "/" r) "/" = true).
    { apply contains_iff. now exists a, r. }
    now rewrite H.
Qed.

Lemma endswith_basename (s w : string) :
  contains w "/" = false ->
  endswith s w = true -> endswith (OsPath.basename s) w = true.
Proof.
  intros Hw. induction s as [|c r IH]; [trivial |].
  intros Hs. cbn [OsPath.basename].
  assert (Hcases : String c r = w \/ endswith r w = true).
  { cbn [endswith] in Hs. apply orb_prop in Hs as [H | H]; [left | now right].
    now apply String.eqb_eq. }
  destruct (contains r "/") eqn:Hr.
  - destruct Hcases as [<- | H]; [| now apply IH].
    cbn [contains] in Hw. rewrite Hr, orb_true_r in Hw. discriminate.
  - destruct (Ascii.eqb_spec c "/") as [-> | Hc]; [| exact Hs].
    destruct Hcases as [<- | H]; [| exact H].
    cbn in Hw. discriminate.
Qed.

Lemma processed_extension_no_slash (path : string) :
  contains (processed_extension path) "/" = false.
Proof. unfold processed_extension. repeat case_if; reflexivity. Qed.

(** X18. [processed_json_filename] never returns a name with a ["/"].
    For an input [root/rel] that ends in [".json"], with a root that
    holds no [".json"] and does not occur again behind itself once the
    extension is substituted, the name is the last component of [rel]
    with the extension substituted: it ends with the category's
    extension and does not depend on the output root. *)
Theorem processed_json_filename_under_root (root rel out : string) :
  let path := root +:+ "/" +:+ rel in
  let ext := processed_extension path in
  (forall p i o, contains (processed_json_filename p i o) "/" = false) /\
  (contains root ".json" = false ->
   contains ("/" +:+ replace rel ".json" ext) root = false ->
   endswith rel ".json" = true ->
   processed_json_filename path root out
     = OsPath.basename (replace rel ".json" ext) /\
   endswith (processed_json_filename path root out) ext = true).
Proof.
  intros path ext. split.
  - intros p i o. apply basename_no_slash.
  - intros Hroot Hfree Hjson.
    assert (Hne : root <> "").
    { intros ->. now rewrite contains_startswith in Hfree. }
    assert (Hp : processed_json_path path root out
                 = out +:+ String "/" (replace rel ".json" ext)).
    { unfold processed_json_path. fold ext. subst path.
      change (root +:+ "/" +:+ rel) with (root +:+ String "/" rel).
      rewrite replace_past_root by (assumption || reflexivity).
      rewrite replace_hit by assumption.
      now rewrite (replace_absent _ _ _ Hfree). }
    unfold processed_json_filename. rewrite Hp, basename_after_slash.
    split; [reflexivity |].
    apply endswith_basename; [apply processed_extension_no_slash |].
    now apply replace_endswith.
Qed.

End PathEdges.

(** * Command line, processes and the scripts' [main] *)

Section Scripts.
Import Os Common Process CommonRest Script.

(** Splitting on what option name [opt] is. *)
Ltac case_opt opt :=
  unfold is_in; cbn [existsb];
  repeat match goal with
         | |- context [String.eqb opt ?s] =>
             destruct (String.eqb_spec opt s) as [-> | ?]
         end.

Lemma read_opts_help (opts : list (string * string)) (self : CommandOptions) :
  (exists opt arg, In (opt, arg) opts /\ is_in opt ["-h"; "--help"] = true) ->
  read_opts opts self = SystemExit 0.
Proof.
  revert self. induction opts as [| [o a] opts IH]; intros self (opt & arg & Hin & Hh).
  - destruct Hin.
  - cbn [read_opts].
    destruct (is_in o ["-h"; "--help"]) eqn:Ho; [reflexivity |].
    assert (Hrest : exists opt arg,
               In (opt, arg) opts /\ is_in opt ["-h"; "--help"] = true).
    { destruct Hin as [[= -> ->] | Hin]; [congruence |]. now exists opt, arg. }
    repeat case_if; now apply IH.
Qed.

Lemma read_opts_no_help (opts : list (string * string))
    (self : CommandOptions) :
  no_help opts ->
  read_opts opts self =
    Constructed
      {| project_path :=
           last_value ["-p"; "--project-path"] Some (project_path self) opts;
         build_path :=
           last_value ["-b"; "--build-path"] Some (build_path self) opts;
         flatc_path :=
           last_value ["-f"; "--flatc"] (fun arg => arg) (flatc_path self)
             opts |}.
Proof.
  intros H. revert self. induction H as [| [o a] opts Ho _ IH]; intros self.
  - now destruct self.
  - cbn [read_opts last_value]. cbn [fst] in Ho. rewrite Ho.
    revert Ho. case_opt o; intros Ho; try discriminate;
      cbn [orb]; rewrite IH; reflexivity.
Qed.

(** X19. A help option anywhere among the options ends the construction
    with [sys.exit(0)], whatever the other options are, empty paths
    included. *)
Theorem command_options_help (FLATC : string) (opts : list (string * string)) :
  (exists opt arg, In (opt, arg) opts /\ is_in opt ["-h"; "--help"] = true) ->
  CommandOptions_init FLATC opts = SystemExit 0.
Proof.
  intros H. unfold CommandOptions_init. now rewrite read_opts_help.
Qed.

Lemma command_options_last_wins_aux (FLATC : string)
    (opts : list (string * string)) :
  no_help opts ->
  CommandOptions_init FLATC opts =
    if is_empty_str (last_value ["-p"; "--project-path"] Some None opts)
       || is_empty_str (last_value ["-b"; "--build-path"] Some None opts)
    then SystemExit 1
    else Constructed
           {| project_path :=
                last_value ["-p"; "--project-path"] Some None opts;
              build_path := last_value ["-b"; "--build-path"] Some None opts;
              flatc_path :=
                last_value ["-f"; "--flatc"] (fun arg => arg) FLATC opts |}.
Proof.
  intros H. unfold CommandOptions_init. now rewrite read_opts_no_help.
Qed.

(** X20. Without a help option, each attribute gets the argument of the
    last option that names it (the defaults, [None] for the two paths,
    when none does), and the construction ends with [sys.exit(1)] exactly
    when the project path or the build path so obtained is the empty
    string; a path that was never given passes. *)
Theorem command_options_last_wins (FLATC : string)
    (opts : list (string * string)) :
  no_help opts ->
  let p := last_value ["-p"; "--project-path"] Some None opts in
  let b := last_value ["-b"; "--build-path"] Some None opts in
  let f := last_value ["-f"; "--flatc"] (fun arg => arg) FLATC opts in
  CommandOptions_init FLATC opts =
    if is_empty_str p || is_empty_str b then SystemExit 1
    else Constructed {| project_path := p; build_path := b; flatc_path := f |}.
Proof.
  intros H p b f. now apply command_options_last_wins_aux.
Qed.

Lemma run_subprocess_error_none (argv : list string) (p : spawned) :
  run_subprocess_error argv p = None <-> p = Exited 0.
Proof.
  destruct p as [text | rc]; cbn [run_subprocess_error].
  - split; discriminate.
  - destruct (Z.eqb_spec rc 0) as [-> | Hne]; split; try trivial;
      try discriminate.
    intros [= ->]. congruence.
Qed.

Lemma run_subprocess_error_some (argv : list string) (p : spawned)
    (err : build_error) :
  run_subprocess_error argv p = Some err ->
  error_code err <> 0%Z /\ CommonRest.argv err = argv /\
  (forall text, p = CannotStart text -> error_code err = 1%Z).
Proof.
  destruct p as [text | rc]; cbn [run_subprocess_error].
  - intros [= <-]. cbn.
    split; [discriminate | split; [reflexivity | intros; reflexivity]].
  - destruct (Z.eqb_spec rc 0) as [-> | Hne]; [discriminate |].
    intros [= <-]. cbn.
    split; [exact Hne | split; [reflexivity | intros text' [= ]]].
Qed.

(** X21. For a command [Popen] accepts (a program and arguments
    without NUL characters), [run_subprocess] returns without raising
    exactly when the process started and left return code zero;
    otherwise it raises [BuildError], whose error code is never zero (one
    when the process could not be started, else the return code) and
    whose [argv] is the command.  The file system is as the process left
    it either way. *)
Theorem run_subprocess_outcome (spawn : spawner) (argv : list string)
    (fs : filesystem) :
  valid_command argv = true ->
  (fst (run_subprocess spawn argv fs) = Ok tt <->
   fst (spawn argv fs) = Exited 0) /\
  (fst (run_subprocess spawn argv fs) = Raise BuildError <->
   fst (spawn argv fs) <> Exited 0) /\
  snd (run_subprocess spawn argv fs) = snd (spawn argv fs) /\
  (forall p err,
      run_subprocess_error argv p = Some err ->
      error_code err <> 0%Z /\ CommonRest.argv err = argv /\
      (forall text, p = CannotStart text -> error_code err = 1%Z)).
Proof.
  intros _.
  split; [| split; [| split; [| apply run_subprocess_error_some]]];
    unfold run_subprocess;
    destruct (spawn argv fs) as [p fs'] eqn:E; cbn [fst snd];
    pose proof (run_subprocess_error_none argv p) as Hnone;
    destruct (run_subprocess_error argv p) as [err |]; cbn [fst snd];
    try reflexivity.
  - split; [discriminate |]. intros Hp. apply Hnone in Hp. discriminate.
  - split; [intros _; now apply Hnone | reflexivity].
  - split; [| reflexivity]. intros _ Hp. apply Hnone in Hp. discriminate.
  - split; [discriminate |]. intros Hp. destruct Hp. now apply Hnone.
Qed.

(** The three ways [main] of [build_project.py] can end once the options
    name both paths. *)
Lemma build_project_main_run (glob : string -> bool -> list string)
    (SDK_PATH : string) (dirname : string -> string)
    (makedirs : string -> io unit) (spawn : spawner) (FLATC : string)
    (opts : list (string * string)) (fs : filesystem) (p b : string) :
  no_help opts ->
  last_value ["-p"; "--project-path"] Some None opts = Some p ->
  last_value ["-b"; "--build-path"] Some None opts = Some b ->
  p <> "" -> b <> "" ->
  BuildProject.main glob SDK_PATH dirname makedirs spawn FLATC opts fs =
    match generate_flatbuffers_binaries SDK_PATH dirname makedirs
            (run_subprocess spawn)
            (last_value ["-f"; "--flatc"] (fun arg => arg) FLATC opts)
            (get_conversion_data glob SDK_PATH fs p) p b fs with
    | (Ok _, fs') => (Returned 0, fs')
    | (Raise BuildError, fs') => (Returned 1, fs')
    | (Raise e, fs') => (Uncaught (Exception e), fs')
    end.
Proof.
  intros Hopts Hp Hb Hpne Hbne. unfold BuildProject.main.
  rewrite (command_options_last_wins_aux FLATC opts Hopts), Hp, Hb.
  cbn [is_empty_str].
  destruct (String.eqb_spec p "") as [-> | _]; [congruence |].
  destruct (String.eqb_spec b "") as [-> | _]; [congruence |].
  reflexivity.
Qed.

(** X22. [build_project.py], called with both paths: when the compiler
    fails on some unit ([BuildError]), [main] returns 1, yet the script,
    which calls [main] without passing its value to [sys.exit], ends
    with status 0, as it does after a successful build; any other
    exception of the loop (the [FileNotFoundError] of the staleness
    test, for one) is not caught and ends the script with status 1. *)
Theorem build_project_status (glob : string -> bool -> list string)
    (SDK_PATH : string) (dirname : string -> string)
    (makedirs : string -> io unit) (spawn : spawner) (FLATC : string)
    (opts : list (string * string)) (fs : filesystem) (p b : string) :
  no_help opts ->
  last_value ["-p"; "--project-path"] Some None opts = Some p ->
  last_value ["-b"; "--build-path"] Some None opts = Some b ->
  p <> "" -> b <> "" ->
  let built :=
    generate_flatbuffers_binaries SDK_PATH dirname makedirs
      (run_subprocess spawn)
      (last_value ["-f"; "--flatc"] (fun arg => arg) FLATC opts)
      (get_conversion_data glob SDK_PATH fs p) p b fs in
  let ended := BuildProject.main glob SDK_PATH dirname makedirs spawn FLATC
                 opts fs in
  let status := BuildProject.script glob SDK_PATH dirname makedirs spawn FLATC
                  opts fs in
  snd ended = snd built /\
  (fst built = Ok tt -> fst ended = Returned 0 /\ status = 0%Z) /\
  (fst built = Raise BuildError -> fst ended = Returned 1 /\ status = 0%Z) /\
  (forall e, e <> BuildError -> fst built = Raise e ->
             fst ended = Uncaught (Exception e) /\ status = 1%Z).
Proof.
  intros Hopts Hp Hb Hpne Hbne built ended status.
  subst status. unfold BuildProject.script. fold ended. subst ended.
  rewrite (build_project_main_run _ _ _ _ _ _ _ _ p b Hopts Hp Hb Hpne Hbne).
  fold built. clearbody built.
  destruct built as [[[] | e] fs']; [| destruct e]; cbn [fst snd status_of_call];
    (split; [reflexivity |]).
  - split; [intros _; now split |]. split; [discriminate |].
    intros e _ H. discriminate.
  - split; [discriminate |]. split; [discriminate |].
    intros e _ [= <-]. now split.
  - split; [discriminate |]. split; [discriminate |].
    intros e _ [= <-]. now split.
  - split; [discriminate |]. split; [intros _; now split |].
    intros e He [= <-]. now destruct He.
Qed.

(** X23. Leaving the project path out passes the check of the options
    ([None] is not the empty string) and ends [build_project.py] in a
    [TypeError] that nobody catches, before the file system is
    touched. *)
Theorem build_project_without_project_path
    (glob : string -> bool -> list string)
    (SDK_PATH : string) (dirname : string -> string)
    (makedirs : string -> io unit) (spawn : spawner) (FLATC : string)
    (opts : list (string * string)) (fs : filesystem) :
  no_help opts ->
  last_value ["-p"; "--project-path"] Some None opts = None ->
  is_empty_str (last_value ["-b"; "--build-path"] Some None opts) = false ->
  BuildProject.main glob SDK_PATH dirname makedirs spawn FLATC opts fs
    = (Uncaught (Exception TypeError), fs) /\
  BuildProject.script glob SDK_PATH dirname makedirs spawn FLATC opts fs
    = 1%Z.
Proof.
  intros Hopts Hp Hb.
  assert (Hmain : BuildProject.main glob SDK_PATH dirname makedirs spawn
                    FLATC opts fs = (Uncaught (Exception TypeError), fs)).
  { unfold BuildProject.main.
    rewrite (command_options_last_wins_aux FLATC opts Hopts), Hp, Hb.
    reflexivity. }
  split; [exact Hmain |]. unfold BuildProject.script. now rewrite Hmain.
Qed.

Lemma for_each_all_ok {A : Type} (l : list A) (body : A -> io unit)
    (fs : filesystem) :
  (forall x fs1, fst (body x fs1) = Ok tt) ->
  fst (for_each l body fs) = Ok tt.
Proof.
  intros H. revert fs. induction l as [| x l IH]; intros fs; [reflexivity |].
  cbn [for_each]. unfold io_bind.
  pose proof (H x fs) as Hx. destruct (body x fs) as [[[] | e] fs1];
    [apply IH | discriminate].
Qed.

(** X24. [build_schemas.py]: [main] never returns 1.  The first schema
    whose compiler run cannot be started or ends with a return code
    other than zero stops the loop, and the handler of the [BuildError]
    fails with [NameError] on [handle_build_error]; the schemas behind it
    are not compiled.  When every run ends with zero, [main] returns 0. *)
Theorem build_schemas_outcome (PROJECT_ROOT : string)
    (glob : string -> bool -> list string) (spawn : spawner)
    (flatc output : string) (fs : filesystem) :
  fst (BuildSchemas.main PROJECT_ROOT glob spawn flatc output fs)
    <> Returned 1 /\
  (forall l1 schema l2 fs1 p fs2,
      glob (join PROJECT_ROOT ["schemas"; "*.fbs"]) false
        = l1 ++ schema :: l2 ->
      for_each l1
        (fun schema =>
           BuildSchemas.compile_flatbuffer_binary_schema PROJECT_ROOT spawn
             flatc schema output) fs = (Ok tt, fs1) ->
      spawn [flatc; "-o"; output; "-I"; join PROJECT_ROOT ["schemas"];
             "-b"; schema; "--schema"] fs1 = (p, fs2) ->
      p <> Exited 0 ->
      BuildSchemas.main PROJECT_ROOT glob spawn flatc output fs
        = (Uncaught (NameError "handle_build_error"), fs2) /\
      BuildSchemas.script PROJECT_ROOT glob spawn flatc output fs = 1%Z) /\
  ((forall argv fs1, fst (spawn argv fs1) = Exited 0) ->
   fst (BuildSchemas.main PROJECT_ROOT glob spawn flatc output fs)
     = Returned 0 /\
   BuildSchemas.script PROJECT_ROOT glob spawn flatc output fs = 0%Z).
Proof.
  split; [| split].
  - unfold BuildSchemas.main.
    destruct (BuildSchemas.generate_flatbuffer_binaries _ _ _ _ _ _)
      as [[[] | []] fs']; discriminate.
  - intros l1 schema l2 fs1 p fs2 Hglob Hl1 Hspawn Hp.
    assert (Hmain : BuildSchemas.main PROJECT_ROOT glob spawn flatc output fs
                    = (Uncaught (NameError "handle_build_error"), fs2)).
    { unfold BuildSchemas.main, BuildSchemas.generate_flatbuffer_binaries.
      rewrite Hglob, for_each_app, Hl1. cbn [for_each]. unfold io_bind.
      unfold BuildSchemas.compile_flatbuffer_binary_schema at 1.
      cbn [app]. unfold run_subprocess. rewrite Hspawn.
      destruct (run_subprocess_error _ p) as [err |] eqn:Herr; [reflexivity |].
      apply run_subprocess_error_none in Herr. contradiction. }
    split; [exact Hmain |]. unfold BuildSchemas.script. now rewrite Hmain.
  - intros Hok.
    assert (Hgen : fst (BuildSchemas.generate_flatbuffer_binaries
                          PROJECT_ROOT glob spawn flatc output fs) = Ok tt).
    { apply for_each_all_ok. intros schema fs1.
      unfold BuildSchemas.compile_flatbuffer_binary_schema, run_subprocess.
      pose proof (Hok ([flatc; "-o"; output] ++
                       ["-I"; join PROJECT_ROOT ["schemas"]] ++
                       ["-b"; schema; "--schema"]) fs1) as H.
      cbn [app] in *.
      destruct (spawn _ fs1) as [q fs2]. cbn [fst] in H. now rewrite H. }
    unfold BuildSchemas.script, BuildSchemas.main.
    destruct (BuildSchemas.generate_flatbuffer_binaries _ _ _ _ _ _)
      as [[[] | e] fs']; cbn [fst] in Hgen; [now split | discriminate].
Qed.

(** X25. [build_assets.py] takes its target from the second remaining
    argument only:
    the clean branch of [main] is taken exactly when there are at least
    two remaining arguments and the second is ['clean'] (one argument
    ['clean'] alone builds), and that branch ends in the uncaught
    [TypeError] with the file system untouched.  So whatever the
    arguments, a run either copies and builds or deletes nothing. *)
Theorem build_assets_main_dispatch (PROJECT_ROOT : string)
    (data : list FlatbuffersConversionData)
    (copy_assets : string -> io unit)
    (generate : string -> string -> io unit)
    (flatc output : string) (args : list string) (fs : filesystem) :
  let run := BuildAssetsMain.main PROJECT_ROOT data copy_assets generate
               flatc output args fs in
  ((exists first rest, args = first :: "clean" :: rest) ->
   run = (Uncaught (Exception TypeError), fs)) /\
  (~ (exists first rest, args = first :: "clean" :: rest) ->
   run = BuildAssetsMain.main PROJECT_ROOT data copy_assets generate
           flatc output [] fs) /\
  BuildAssetsMain.main PROJECT_ROOT data copy_assets generate
    flatc output ["clean"] fs
  = BuildAssetsMain.main PROJECT_ROOT data copy_assets generate
      flatc output [] fs.
Proof.
  intros run. subst run. split; [| split].
  - intros (first & rest & ->). reflexivity.
  - intros Hnot. unfold BuildAssetsMain.main.
    destruct (String.eqb_spec (BuildAssetsMain.target_of args) "clean")
      as [Hc | Hc]; [| reflexivity].
    destruct Hnot.
    destruct args as [| first [| second rest]]; try discriminate.
    cbn in Hc. subst second. now exists first, rest.
  - reflexivity.
Qed.

End Scripts.

(** * The further properties on sample runs *)

Section RunSamples.
Import Str Os Common Plan Registry Scenario Process CommonRest Script Runs.



Lemma needs_rebuild_orders_files_witness :
  needs_rebuild fs_built "proj/events/b.json" "sdk/schemas/event_definition.bfbs"
    = Ok false /\
  needs_rebuild fs_built "proj/events/b.json" "out/events/b.amevent" = Ok false.
Proof.
  split; [reflexivity |].
  apply (needs_rebuild_orders_files fs_built "proj/events/b.json"
           "sdk/schemas/event_definition.bfbs" "out/events/b.amevent");
    reflexivity.
Defined.

Lemma find_in_paths_absolute_witness :
  find_in_paths fs_built "/usr/bin/flatc" ["sdk/bin"; "sdk/schemas"]
    = "/usr/bin/flatc".
Proof.
  apply (find_in_paths_absolute fs_built "/usr/bin/flatc"). reflexivity.
Defined.

Lemma clean_only_removes_files_witness :
  fs_dirs !! "out/events" = Some (Directory 40) /\
  exists t', clean_flatbuffers_binaries plan_built "proj" "out" fs_dirs
               !! "out/events" = Some (Directory t').
Proof.
  split; [reflexivity |].
  destruct (clean_only_removes_files plan_built "proj" "out" fs_dirs)
    as (_ & _ & Hdir).
  apply (Hdir "out/events" 40%Z). reflexivity.
Defined.



Lemma generate_up_to_date_witness :
  generate_flatbuffers_binaries "sdk" OsPath.dirname makedirs_ok
    (run_subprocess spawn_fails) "flatc" plan_events "proj" "out" fs_dirs
  = (Ok tt, fs_dirs).
Proof.
  apply (generate_up_to_date "sdk" OsPath.dirname makedirs_ok
           (run_subprocess spawn_fails) "flatc" plan_events "proj" "out"
           fs_dirs).
  intros element json [<- | []] [<- | []]. split; reflexivity.
Defined.


Lemma processed_json_path_in_place_witness :
  processed_json_path "proj/sounds/a.json" "proj" "proj"
    = "proj/sounds/a.amsound" /\
  endswith (processed_json_path "proj/sounds/a.json" "proj" "proj")
    ".amsound" = true.
Proof.
  split; [reflexivity |].
  apply (processed_json_path_in_place "proj/sounds/a.json" "proj").
  reflexivity.
Defined.

Lemma root_marker_classifies_witness :
  join "my_events/proj" ["sounds/a.json"] = "my_events/proj/sounds/a.json" /\
  processed_extension (join "my_events/proj" ["sounds/a.json"]) = ".amevent".
Proof.
  split; [reflexivity |].
  apply (root_marker_classifies "my_events/proj" "sounds/a.json" "events"
           ".amevent" (take 4 registry) (drop 5 registry));
    try reflexivity.
  repeat constructor.
Defined.

Lemma sample_tree_output_never_json_witness :
  BuildAssets.processed_json_path "repo" "repo/samples/rawassets/buses.json"
    "repo/assets" = "repo/assets/buses.bin" /\
  BuildAssets.processed_json_path "repo" "repo/samples/rawassets/buses.json"
    "repo/assets" <> "repo/samples/rawassets/buses.json".
Proof.
  split; [reflexivity |].
  apply (sample_tree_output_never_json "repo"
           "repo/samples/rawassets/buses.json" "repo/assets").
  reflexivity.
Defined.

Lemma sample_tree_clean_spares_json_witness :
  isfile fs_built "proj/sounds/a.json" = true /\
  BuildAssets.clean_flatbuffer_binaries_body "proj" plan_built "out" fs_built
    !! "proj/sounds/a.json" = fs_built !! "proj/sounds/a.json".
Proof.
  split; [reflexivity |].
  apply (sample_tree_clean_spares_json "proj" plan_built "out" fs_built
           "proj/sounds/a.json").
  reflexivity.
Defined.

Lemma processed_json_filename_under_root_witness :
  processed_json_filename "proj/sounds/sub/a.json" "proj" "out" = "a.amsound" /\
  endswith (processed_json_filename "proj/sounds/sub/a.json" "proj" "out")
    ".amsound" = true.
Proof.
  destruct (processed_json_filename_under_root "proj" "sounds/sub/a.json" "out")
    as [_ H].
  apply H; reflexivity.
Defined.

Lemma command_options_help_witness :
  CommandOptions_init "flatc" [("-p", ""); ("--help", "")] = SystemExit 0.
Proof.
  apply (command_options_help "flatc" [("-p", ""); ("--help", "")]).
  exists "--help", "". split; [right; left |]; reflexivity.
Defined.

Lemma command_options_last_wins_witness :
  CommandOptions_init "flatc" opts_build
  = Constructed {| project_path := Some "proj"; build_path := Some "out";
                   flatc_path := "bin/flatc" |}.
Proof.
  apply (command_options_last_wins "flatc" opts_build).
  repeat constructor.
Defined.

Lemma run_subprocess_outcome_witness :
  fst (run_subprocess spawn_fails ["flatc"; "-o"; "out"] fs_sources)
    = Raise BuildError /\
  fst (run_subprocess spawn_ok ["flatc"; "-o"; "out"] fs_sources) = Ok tt.
Proof.
  split.
  - apply (run_subprocess_outcome spawn_fails ["flatc"; "-o"; "out"] fs_sources);
      [reflexivity | discriminate].
  - apply (run_subprocess_outcome spawn_ok ["flatc"; "-o"; "out"] fs_sources);
      reflexivity.
Defined.

Lemma build_project_status_witness :
  fst (BuildProject.main glob_events "sdk" OsPath.dirname makedirs_ok
         spawn_fails "flatc" opts_build fs_sources) = Returned 1 /\
  BuildProject.script glob_events "sdk" OsPath.dirname makedirs_ok
    spawn_fails "flatc" opts_build fs_sources = 0%Z.
Proof.
  destruct (build_project_status glob_events "sdk" OsPath.dirname makedirs_ok
              spawn_fails "flatc" opts_build fs_sources "proj" "out")
    as (_ & _ & H & _);
    try reflexivity; try discriminate.
  - repeat constructor.
  - apply H. reflexivity.
Defined.

Lemma build_project_without_project_path_witness :
  BuildProject.main glob_events "sdk" OsPath.dirname makedirs_ok spawn_ok
    "flatc" [("-b", "out")] fs_sources
    = (Uncaught (Exception TypeError), fs_sources) /\
  BuildProject.script glob_events "sdk" OsPath.dirname makedirs_ok spawn_ok
    "flatc" [("-b", "out")] fs_sources = 1%Z.
Proof.
  apply (build_project_without_project_path glob_events "sdk" OsPath.dirname
           makedirs_ok spawn_ok "flatc" [("-b", "out")] fs_sources);
    try reflexivity.
  repeat constructor.
Defined.

Lemma build_schemas_outcome_witness :
  BuildSchemas.main "repo" glob_one_schema spawn_fails "flatc" "out" fs_sources
    = (Uncaught (NameError "handle_build_error"), fs_sources) /\
  BuildSchemas.script "repo" glob_one_schema spawn_fails "flatc" "out"
    fs_sources = 1%Z.
Proof.
  destruct (build_schemas_outcome "repo" glob_one_schema spawn_fails
              "flatc" "out" fs_sources) as (_ & H & _).
  apply (H [] "repo/schemas/sound_definition.fbs" [] fs_sources
           (Exited 2) fs_sources); try reflexivity.
  discriminate.
Defined.

Lemma build_assets_main_dispatch_witness :
  BuildAssetsMain.main "repo" plan_built (fun _ => io_ret tt)
    (fun _ _ => io_ret tt) "flatc" "out" ["build_assets.py"; "clean"] fs_built
  = (Uncaught (Exception TypeError), fs_built).
Proof.
  apply (build_assets_main_dispatch "repo" plan_built (fun _ => io_ret tt)
           (fun _ _ => io_ret tt) "flatc" "out"
           ["build_assets.py"; "clean"] fs_built).
  now exists "build_assets.py", [].
Defined.

End RunSamples.
